(** * i.landsat8.swlst: coefficient tables, key canonicalisation and
      placeholder binding

    A shallow embedding of

    - [csv_avg_emissivity_to_dictionary.py]: [is_number],
      [replace_dot_comma_space], [csv_to_dictionary] with its nested
      [transform_cwv], and the embedded table [csv];
    - [i.landsat.swlst.py]: [replace_dummies];

    together with the split-window model of [split_window_lst], which the
    second script imports but which is not among the source files.

    Python byte strings are [string]; a Python [dict] keyed by strings is a
    [gmap string _]; a call that may raise is a value of [result]. *)

From Stdlib Require Import ZArith QArith String Ascii DecimalString.
From stdpp Require Import gmap strings list fin_maps.

Open Scope string_scope.

(** ** Python values and exceptions *)

(** The values that the modelled functions take and give: the strings cut
    out of a table or naming a raster map, the integers drawn by
    [random_digital_numbers], and the [False] that [is_number] hands
    back. *)
Inductive pyval : Type :=
  | PyBool (b : bool)
  | PyInt (z : Z)
  | PyStr (s : string).

Definition pyval_eqb (v w : pyval) : bool :=
  match v, w with
  | PyBool a, PyBool b => Bool.eqb a b
  | PyInt a, PyInt b => Z.eqb a b
  | PyStr a, PyStr b => String.eqb a b
  | _, _ => false
  end.

(** A number in the sense of a converted numeric value, as opposed to the
    text of one. *)
Definition is_py_number (v : pyval) : bool :=
  match v with
  | PyInt _ => true
  | _ => false
  end.

(** [str(v)]. *)
Definition py_str (v : pyval) : string :=
  match v with
  | PyBool true => "True"
  | PyBool false => "False"
  | PyInt z => NilZero.string_of_int (Z.to_int z)
  | PyStr s => s
  end.

(** Where an [IndexError] was raised: [rows.pop(0)], [fields[i]],
    [elements[i]], or the [name[0]] of the name validation inside
    [collections.namedtuple]. *)
Inductive index_site : Type :=
  | InRows
  | InFields (i : nat)
  | InElements (i : nat)
  | InName (name : string).

Inductive exn : Type :=
  | IndexError (site : index_site)
  | ValueError (name : string)
  | SyntaxError (name : string).

Inductive result (A : Type) : Type :=
  | Ok (a : A)
  | Raise (e : exn).

Arguments Ok {A} a.
Arguments Raise {A} e.

Definition bind {A B : Type} (m : result A) (k : A -> result B) : result B :=
  match m with
  | Ok a => k a
  | Raise e => Raise e
  end.

Notation "'let*' x ':=' m 'in' k" := (bind m (fun x => k))
  (at level 10, x name, m at level 100, k at level 200, only parsing).

Definition returns {A : Type} (m : result A) : bool :=
  match m with
  | Ok _ => true
  | Raise _ => false
  end.

(** ** String primitives: [str.split] and [str.replace] *)

(** [s.split(sep)] for a one-character separator, the only kind the
    sources use (a newline and a pipe). The result is never empty. *)
Fixpoint split (sep : ascii) (s : string) : list string :=
  match s with
  | EmptyString => [EmptyString]
  | String c s' =>
      if Ascii.eqb c sep then EmptyString :: split sep s'
      else match split sep s' with
           | h :: t => String c h :: t
           | [] => [String c EmptyString]
           end
  end.

(** [starts_with old s]: does [s] begin with [old]? *)
Fixpoint starts_with (old s : string) : bool :=
  match old, s with
  | EmptyString, _ => true
  | String a old', String b s' => Ascii.eqb a b && starts_with old' s'
  | String _ _, EmptyString => false
  end.

(** Left-to-right scan of [str.replace] for a non-empty [old]: at an
    occurrence of [old] emit [new] and skip the rest of the occurrence
    ([skip] counts the characters still to be dropped), otherwise copy one
    character. Emitted text is never scanned again within the pass. *)
Fixpoint replace_scan (old new : string) (skip : nat) (s : string) : string :=
  match s with
  | EmptyString => EmptyString
  | String c s' =>
      match skip with
      | S k => replace_scan old new k s'
      | O =>
          if starts_with old s
          then new ++ replace_scan old new (String.length old - 1) s'
          else String c (replace_scan old new 0 s')
      end
  end.

(** For the empty [old] Python puts [new] before every character and at the
    end. *)
Fixpoint replace_empty (new s : string) : string :=
  match s with
  | EmptyString => new
  | String c s' => new ++ String c (replace_empty new s')
  end.

(** [s.replace(old, new)]. *)
Definition replace (s old new : string) : string :=
  match old with
  | EmptyString => replace_empty new s
  | String _ _ => replace_scan old new 0 s
  end.

(** The [reduce] over a tuple of (old, new) pairs that both sources use:
    each pair is applied with [str.replace] to the result of the previous
    one, left to right. *)
Definition reduce_replace (replacements : list (string * string)) (s : string)
  : string :=
  fold_left (fun alpha omega => replace alpha (fst omega) (snd omega))
            replacements s.

(** ** What [float(s)] and [complex(s)] accept

    [is_number] only asks whether the two constructors raise [ValueError].
    The recognisers below follow the string grammar of the Python 2.7
    constructors: optional blanks around the number, a decimal mantissa
    with at least one digit, an exponent that is taken only when it has a
    digit, and the spellings of infinity and not-a-number. *)

Definition is_space (c : ascii) : bool :=
  let n := nat_of_ascii c in
  (n =? 32)%nat || ((9 <=? n)%nat && (n <=? 13)%nat).

Definition is_digit (c : ascii) : bool :=
  let n := nat_of_ascii c in (48 <=? n)%nat && (n <=? 57)%nat.

Definition is_alpha (c : ascii) : bool :=
  let n := nat_of_ascii c in
  ((65 <=? n)%nat && (n <=? 90)%nat) || ((97 <=? n)%nat && (n <=? 122)%nat).

Definition is_sign (c : ascii) : bool :=
  Ascii.eqb c "+" || Ascii.eqb c "-".

Definition to_lower (c : ascii) : ascii :=
  let n := nat_of_ascii c in
  if (65 <=? n)%nat && (n <=? 90)%nat then ascii_of_nat (n + 32) else c.

Fixpoint skip_while (p : ascii -> bool) (s : string) : string :=
  match s with
  | EmptyString => EmptyString
  | String c s' => if p c then skip_while p s' else s
  end.

Fixpoint count_while (p : ascii -> bool) (s : string) : nat :=
  match s with
  | EmptyString => 0
  | String c s' => if p c then S (count_while p s') else 0
  end.

Definition skip_sign (s : string) : string :=
  match s with
  | String c s' => if is_sign c then s' else s
  | EmptyString => s
  end.

Definition is_empty (s : string) : bool :=
  match s with
  | EmptyString => true
  | String _ _ => false
  end.

(** Case-insensitive match of the lower-case word [t] at the start of [s];
    the rest of [s] on success. *)
Fixpoint match_word (t s : string) : option string :=
  match t, s with
  | EmptyString, _ => Some s
  | String a t', String b s' =>
      if Ascii.eqb (to_lower b) a then match_word t' s' else None
  | String _ _, EmptyString => None
  end.

(** Decimal numbers: sign, digits, optional point and digits, optional
    exponent. [None] when there is no digit in the mantissa. *)
Definition parse_decimal (s : string) : option string :=
  let s1 := skip_sign s in
  let nint := count_while is_digit s1 in
  let s2 := skip_while is_digit s1 in
  let '(nfrac, s3) :=
    match s2 with
    | String "."%char t => (count_while is_digit t, skip_while is_digit t)
    | _ => (0, s2)
    end in
  if (nint + nfrac =? 0)%nat then None
  else
    Some (match s3 with
          | String c t =>
              if Ascii.eqb (to_lower c) "e"
              then let t1 := skip_sign t in
                   if (0 <? count_while is_digit t1)%nat
                   then skip_while is_digit t1
                   else s3
              else s3
          | EmptyString => s3
          end).

Definition parse_inf_or_nan (s : string) : option string :=
  let s1 := skip_sign s in
  match match_word "inf" s1 with
  | Some r =>
      match match_word "inity" r with
      | Some r' => Some r'
      | None => Some r
      end
  | None => match_word "nan" s1
  end.

(** The longest prefix of [s] that reads as a float; [None] when no
    character is consumed. *)
Definition string_to_double (s : string) : option string :=
  match parse_decimal s with
  | Some r => Some r
  | None => parse_inf_or_nan s
  end.

(** [float(s)] does not raise [ValueError]. *)
Definition float_accepts (s : string) : bool :=
  match string_to_double (skip_while is_space s) with
  | Some r => is_empty (skip_while is_space r)
  | None => false
  end.

Definition expect_j (s : string) : option string :=
  match s with
  | String c t => if Ascii.eqb (to_lower c) "j" then Some t else None
  | EmptyString => None
  end.

(** [complex(s)] does not raise [ValueError]: a float, a float followed by
    [j], a float and a signed float followed by [j], or the bare forms
    [j], [+j], [-j]; optionally inside one pair of parentheses. *)
Definition complex_accepts (s : string) : bool :=
  let s0 := skip_while is_space s in
  let '(got_bracket, s1) :=
    match s0 with
    | String "("%char t => (true, skip_while is_space t)
    | _ => (false, s0)
    end in
  let body :=
    match string_to_double s1 with
    | Some s2 =>
        match s2 with
        | String c t =>
            if is_sign c then
              expect_j (match string_to_double s2 with
                        | Some r => r
                        | None => t
                        end)
            else if Ascii.eqb (to_lower c) "j" then Some t
            else Some s2
        | EmptyString => Some s2
        end
    | None => expect_j (skip_sign s1)
    end in
  match body with
  | None => false
  | Some s3 =>
      let s4 := skip_while is_space s3 in
      if got_bracket
      then match s4 with
           | String ")"%char t => is_empty (skip_while is_space t)
           | _ => false
           end
      else is_empty s4
  end.

(** ** [csv_avg_emissivity_to_dictionary.py]: helpers *)

(** [is_number] on a string, which is what the elements of a row are: the
    nested [try] blocks fall through to [return value] when [float] or,
    failing that, [complex] accepts the value, and reach [return False]
    when both raise [ValueError]. *)
Definition is_number (value : string) : pyval :=
  if float_accepts value then PyStr value
  else if complex_accepts value then PyStr value
  else PyBool false.

Definition replacements_dot_comma_space : list (string * string) :=
  [ (".", ""); (", ", "_"); (",", "_"); (" ", "_");
    ("(", ""); (")", ""); ("/", "_") ].

Definition replace_dot_comma_space (s : string) : string :=
  reduce_replace replacements_dot_comma_space s.

(** ** [collections.namedtuple]

    The library call validates the type name and the field names before it
    builds the class, and [csv_to_dictionary] fails when it does. The
    checks, in the order the Python 2.7 library makes them: every name
    consists of letters, digits and underscores, is no keyword, and its
    first character (read with [name[0]], so the empty name is an
    [IndexError]) is no digit; then no field name starts with an underscore
    or repeats an earlier one. The class is then made by executing its
    source text, and the compiler refuses that text with a [SyntaxError]
    when the class name, a parameter or an attribute in it is one of the
    two names that cannot be assigned to, [None] and [__debug__]. *)

Definition python_keywords : list string :=
  [ "and"; "as"; "assert"; "break"; "class"; "continue"; "def"; "del";
    "elif"; "else"; "except"; "exec"; "finally"; "for"; "from"; "global";
    "if"; "import"; "in"; "is"; "lambda"; "not"; "or"; "pass"; "print";
    "raise"; "return"; "try"; "while"; "with"; "yield" ].

Definition iskeyword (name : string) : bool :=
  existsb (String.eqb name) python_keywords.

Fixpoint all_chars (p : ascii -> bool) (s : string) : bool :=
  match s with
  | EmptyString => true
  | String c s' => p c && all_chars p s'
  end.

Definition is_name_char (c : ascii) : bool :=
  is_alpha c || is_digit c || Ascii.eqb c "_".

Definition check_name (name : string) : result unit :=
  if negb (all_chars is_name_char name) then Raise (ValueError name)
  else if iskeyword name then Raise (ValueError name)
  else match name with
       | EmptyString => Raise (IndexError (InName name))
       | String c _ => if is_digit c then Raise (ValueError name) else Ok tt
       end.

Fixpoint check_names (names : list string) : result unit :=
  match names with
  | [] => Ok tt
  | name :: rest => let* _ := check_name name in check_names rest
  end.

Fixpoint check_fields (seen field_names : list string) : result unit :=
  match field_names with
  | [] => Ok tt
  | name :: rest =>
      if starts_with "_" name then Raise (ValueError name)
      else if existsb (String.eqb name) seen then Raise (ValueError name)
      else check_fields (name :: seen) rest
  end.

(** The class that [transform_cwv] builds for one row: the [namedtuple]
    class with its name and [_fields], and the ten class attributes the
    function then assigns. *)
Record cwv_class : Type := {
  typename : string;
  _fields : list string;
  subrange : pyval;
  b0 : pyval;
  b1 : pyval;
  b2 : pyval;
  b3 : pyval;
  b4 : pyval;
  b5 : pyval;
  b6 : pyval;
  b7 : pyval;
  rmse : pyval
}.

(** The names that Python 2.7 does not let a program bind. *)
Definition forbidden_name (name : string) : bool :=
  String.eqb name "None" || String.eqb name "__debug__".

(** Executing the class template: the type name is bound by the [class]
    statement and every field name as a parameter of [__new__] and as a
    class attribute. *)
Definition exec_template (name : string) (field_names : list string)
  : result unit :=
  match find forbidden_name (name :: field_names) with
  | Some bad => Raise (SyntaxError bad)
  | None => Ok tt
  end.

(** [collections.namedtuple(name, field_names)]: the name and the field
    names of the new class once they have passed the checks. *)
Definition namedtuple (name : string) (field_names : list string)
  : result (string * list string) :=
  let* _ := check_names (name :: field_names) in
  let* _ := check_fields [] field_names in
  let* _ := exec_template name field_names in
  Ok (name, field_names).

(** The class that [transform] builds for one row of an emissivity
    table. *)
Record ect_class : Type := {
  ect_typename : string;
  ect_fields : list string;
  TIRS10 : pyval;
  TIRS11 : pyval
}.

(** ** [csv_to_dictionary] *)

Definition getitem {A : Type} (site : nat -> index_site) (l : list A) (i : nat)
  : result A :=
  match l !! i with
  | Some x => Ok x
  | None => Raise (IndexError (site i))
  end.

(** The nested function [transform], for rows of three elements.
    [fields] is the variable of the enclosing call, [dictionary] the
    dictionary it updates. [csv_to_dictionary] defines it and does not
    call it. *)
Definition transform (fields : list string)
    (dictionary : gmap string ect_class) (row : string)
  : result (gmap string ect_class) :=
  let elements := split "|" row in
  let* e0 := getitem InElements elements 0 in
  let key := replace_dot_comma_space e0 in
  let* f0 := getitem InFields fields 0 in
  let* f1 := getitem InFields fields 1 in
  let* cls := namedtuple key [f0; f1] in
  let* v1 := getitem InElements elements 1 in
  let* v2 := getitem InElements elements 2 in
  let ect :=
    {| ect_typename := fst cls; ect_fields := snd cls;
       TIRS10 := is_number v1;
       TIRS11 := is_number v2 |} in
  Ok (<[key := default ect (dictionary !! key)]> dictionary).

(** The nested function [transform_cwv], for rows of ten elements. *)
Definition transform_cwv (fields : list string)
    (dictionary : gmap string cwv_class) (row : string)
  : result (gmap string cwv_class) :=
  let elements := split "|" row in
  let* e0 := getitem InElements elements 0 in
  let key := replace_dot_comma_space e0 in
  let* f0 := getitem InFields fields 0 in
  let* f1 := getitem InFields fields 1 in
  let* f2 := getitem InFields fields 2 in
  let* f3 := getitem InFields fields 3 in
  let* f4 := getitem InFields fields 4 in
  let* f5 := getitem InFields fields 5 in
  let* f6 := getitem InFields fields 6 in
  let* f7 := getitem InFields fields 7 in
  let* f8 := getitem InFields fields 8 in
  let* f9 := getitem InFields fields 9 in
  let* cls := namedtuple key (map replace_dot_comma_space
                                 [f0; f1; f2; f3; f4; f5; f6; f7; f8; f9]) in
  let* v0 := getitem InElements elements 0 in
  let* v1 := getitem InElements elements 1 in
  let* v2 := getitem InElements elements 2 in
  let* v3 := getitem InElements elements 3 in
  let* v4 := getitem InElements elements 4 in
  let* v5 := getitem InElements elements 5 in
  let* v6 := getitem InElements elements 6 in
  let* v7 := getitem InElements elements 7 in
  let* v8 := getitem InElements elements 8 in
  let* v9 := getitem InElements elements 9 in
  let cwv :=
    {| typename := fst cls; _fields := snd cls;
       subrange := is_number v0;
       b0 := is_number v1;
       b1 := is_number v2;
       b2 := is_number v3;
       b3 := is_number v4;
       b4 := is_number v5;
       b5 := is_number v6;
       b6 := is_number v7;
       b7 := is_number v8;
       rmse := is_number v9 |} in
  Ok (<[key := default cwv (dictionary !! key)]> dictionary).

(** [map(transform_cwv, rows)]: the rows in order, the first exception ends
    the call. *)
Fixpoint map_rows {D : Type} (f : D -> string -> result D)
    (rows : list string) (dictionary : D) : result D :=
  match rows with
  | [] => Ok dictionary
  | row :: rest => let* d := f dictionary row in map_rows f rest d
  end.

Definition newline : ascii := "010"%char.

Definition csv_to_dictionary (csv : string) : result (gmap string cwv_class) :=
  match split newline csv with
  | [] => Raise (IndexError InRows)
  | header :: rows =>
      let fields := drop 1 (split "|" header) in
      map_rows (transform_cwv fields) rows ∅
  end.

(** The table embedded at the top of the module. *)
Definition csv : string :=
"Emissivity Class|TIRS10|TIRS11
Cropland|0.971|0.968
Forest|0.995|0.996
Grasslands|0.97|0.971
Shrublands|0.969|0.97
Wetlands|0.992|0.998
Waterbodies|0.992|0.998
Tundra|0.98|0.984
Impervious|0.973|0.981
Barren Land|0.969|0.978
Snow and ice|0.992|0.998".

(** ** Reading a table text the way [csv_to_dictionary] does *)

Definition header_fields (csv : string) : list string :=
  drop 1 (split "|" (hd EmptyString (split newline csv))).

Definition data_rows (csv : string) : list string :=
  tl (split newline csv).

Definition element (row : string) (i : nat) : string :=
  nth i (split "|" row) EmptyString.

Definition row_key (row : string) : string :=
  replace_dot_comma_space (element row 0).

Definition field_names (fields : list string) : list string :=
  map replace_dot_comma_space (take 10 fields).

(** What a row that passes all checks contributes. *)
Definition row_class (fields : list string) (row : string) : cwv_class :=
  {| typename := row_key row; _fields := field_names fields;
     subrange := is_number (element row 0);
     b0 := is_number (element row 1);
     b1 := is_number (element row 2);
     b2 := is_number (element row 3);
     b3 := is_number (element row 4);
     b4 := is_number (element row 5);
     b5 := is_number (element row 6);
     b6 := is_number (element row 7);
     b7 := is_number (element row 8);
     rmse := is_number (element row 9) |}.

(** The ten attribute values of a class, in the order of assignment. *)
Definition attributes (c : cwv_class) : list pyval :=
  [ subrange c; b0 c; b1 c; b2 c; b3 c; b4 c; b5 c; b6 c; b7 c; rmse c ].

(** A row gets through [transform_cwv] when the header names ten fields,
    the row has ten elements and [namedtuple] accepts the names. *)
Definition row_ok (fields : list string) (row : string) : bool :=
  (10 <=? length fields)%nat
  && returns (namedtuple (row_key row) (field_names fields))
  && (10 <=? length (split "|" row))%nat.

Definition table_ok (csv : string) : bool :=
  forallb (row_ok (header_fields csv)) (data_rows csv).

(** The first data row with a given canonical key. *)
Definition first_row (key : string) (rows : list string) : option string :=
  find (fun row => String.eqb (row_key row) key) rows.

Definition short_row (row : string) : bool :=
  (length (split "|" row) <? 10)%nat.

(** The dictionary after feeding it the rows that pass: the get-or-set of
    [transform_cwv], row by row. *)
Definition feed (fields : list string) (rows : list string)
    (dictionary : gmap string cwv_class) : gmap string cwv_class :=
  fold_left
    (fun d row =>
       <[row_key row := default (row_class fields row) (d !! row_key row)]> d)
    rows dictionary.

(** The exceptions a failing row can end with: [fields[n]] for a header of
    [n < 10] fields, [elements[k]] for a row of [1 <= k < 10] elements, or
    whatever [namedtuple] raises for the names. *)
Definition row_error (fields : list string) (e : exn) : Prop :=
  match e with
  | IndexError (InFields n) => n = length fields /\ (n < 10)%nat
  | IndexError (InElements k) => (1 <= k < 10)%nat /\ (10 <= length fields)%nat
  | IndexError (InName _) | ValueError _ | SyntaxError _ =>
      (10 <= length fields)%nat
  | IndexError InRows => False
  end.

(** The errors of the name validation in [namedtuple]. *)
Definition name_error (e : exn) : Prop :=
  match e with
  | ValueError _ | SyntaxError _ | IndexError (InName _) => True
  | IndexError _ => False
  end.

(** The text of a number, as [is_number] judges it. *)
Definition numeric_text (s : string) : bool :=
  float_accepts s || complex_accepts s.

(** The value the round-trip property of the specification expects for a
    field whose source text is [text]: a number for numeric text, the text
    itself otherwise. *)
Definition converted_or_verbatim (text : string) (v : pyval) : bool :=
  if numeric_text text then is_py_number v else pyval_eqb v (PyStr text).

(** ** [i.landsat.swlst.py]: [replace_dummies] *)

Definition Input_T10 : string := "Input_T10".
Definition Input_T11 : string := "Input_T11".

Definition replacements_dummies (t10 t11 : pyval) : list (string * string) :=
  [ (Input_T10, py_str t10); (Input_T11, py_str t11) ].

Definition replace_dummies (s : string) (t10 t11 : pyval) : string :=
  reduce_replace (replacements_dummies t10 t11) s.

(** *** Expressions as templates

    An expression seen as literal text interleaved with the two
    placeholder tokens, its rendering as the string handed to
    [replace_dummies], and the single simultaneous substitution. *)
Inductive piece : Type :=
  | Lit (text : string)
  | T10
  | T11.

Definition render_piece (x y : string) (p : piece) : string :=
  match p with
  | Lit text => text
  | T10 => x
  | T11 => y
  end.

Fixpoint instantiate (x y : string) (tpl : list piece) : string :=
  match tpl with
  | [] => EmptyString
  | p :: rest => render_piece x y p ++ instantiate x y rest
  end.

Definition render (tpl : list piece) : string :=
  instantiate Input_T10 Input_T11 tpl.

(** [old] and [s] agree as far as the shorter of the two goes: an
    occurrence of [old] could begin where [s] begins, if the text after [s]
    went on suitably. *)
Fixpoint may_begin (old s : string) : bool :=
  match old, s with
  | String a old', String b s' => Ascii.eqb a b && may_begin old' s'
  | _, _ => true
  end.

(** No occurrence of [old] begins anywhere inside [s], whatever follows
    [s]. *)
Fixpoint inert (old s : string) : bool :=
  match s with
  | EmptyString => true
  | String _ s' => negb (may_begin old s) && inert old s'
  end.

(** Literal text in which neither token begins. *)
Definition plain (tpl : list piece) : bool :=
  forallb (fun p => match p with
                    | Lit text => inert Input_T10 text && inert Input_T11 text
                    | _ => true
                    end) tpl.

(** The literal text of a template is inert for [old]. *)
Definition literals_inert (old : string) (tpl : list piece) : bool :=
  forallb (fun p => match p with
                    | Lit text => inert old text
                    | _ => true
                    end) tpl.

(** The character [c] is absent from [s]. *)
Definition absent (c : ascii) (s : string) : bool :=
  all_chars (fun b => negb (Ascii.eqb b c)) s.

(** [old] occurs in [s]. *)
Fixpoint occurs (old s : string) : bool :=
  starts_with old s
  || match s with
     | EmptyString => false
     | String _ s' => occurs old s'
     end.

(** ** The split-window model of [split_window_lst]

    [i.landsat.swlst.py] builds a [SplitWindowLST] from two emissivities and
    calls [compute_lst]; the class itself comes from the module
    [split_window_lst], which is not among the source files. Arithmetic is
    exact, over the rationals. *)
Module SplitWindowModel.

(** Modelled from the spec: the emissivity pair handed to the missing
    class [SplitWindowLST], one value per thermal channel. *)
Record Emissivity : Type := { eps_i : Q; eps_j : Q }.

(** Modelled from the spec: the coefficient set of one column-water-vapour
    subrange that the missing class [SplitWindowLST] works with. *)
Record SplitWindowCoefficients : Type := {
  b0 : Q; b1 : Q; b2 : Q; b3 : Q; b4 : Q; b5 : Q; b6 : Q; b7 : Q;
  rmse : Q
}.

(** Modelled from the spec: the class [SplitWindowLST] of
    [split_window_lst] is missing. A model is an immutable value built
    from one emissivity pair and one coefficient set; it derives the
    average emissivity and the emissivity difference at construction,
    and construction has no failure. *)
Record model : Type := {
  emissivity : Emissivity;
  coefficients : SplitWindowCoefficients;
  average_emissivity : Q;
  delta_emissivity : Q
}.

(** Modelled from the spec: the constructor of the missing class
    [SplitWindowLST]. It validates nothing. *)
Definition construct (e : Emissivity) (c : SplitWindowCoefficients) : model :=
  {| emissivity := e; coefficients := c;
     average_emissivity := 0.5 * (eps_i e + eps_j e);
     delta_emissivity := eps_i e - eps_j e |}.

(** Modelled from the spec: what the missing method [compute_lst] ends
    with, a temperature or the error of section 7. *)
Inductive outcome : Type :=
  | LST (value : Q)
  | DomainError.

(** [0 < q]. *)
Definition positive (q : Q) : bool := negb (Qle_bool q 0).

(** [q] is zero as a rational. *)
Definition is_zero (q : Q) : bool := Qeq_bool q 0.

(** Modelled from the spec: the method [compute_lst] of [SplitWindowLST]
    is missing. At first use both emissivities are validated to be
    positive, a zero average emissivity is a [DomainError], and otherwise
    the result is the split-window formula of section 4.4. *)
Definition compute (m : model) (t_i t_j : Q) : outcome :=
  let e := average_emissivity m in
  let de := delta_emissivity m in
  let c := coefficients m in
  if negb (positive (eps_i (emissivity m)) && positive (eps_j (emissivity m)))
  then DomainError
  else if is_zero e then DomainError
  else LST (b0 c
            + (b1 c + b2 c * (1 - e) / e + b3 c * de / (e * e))
              * (t_i + t_j) / 2
            + (b4 c + b5 c * (1 - e) / e + b6 c * de / (e * e))
              * (t_i - t_j) / 2
            + b7 c * ((t_i - t_j) * (t_i - t_j))).

End SplitWindowModel.


(** ** Sample tables *)

(** A coefficient table in the layout [transform_cwv] reads: eleven
    columns in the header, ten or more elements in each row. The last
    element of the first row is not the text of a number. *)
Definition cwv_table : string :=
"Range|Subrange|b0|b1|b2|b3|b4|b5|b6|b7|RMSE
S1|0.5|1|0|0|0|0|0|0|n/a
S2|-2.78009|1.01408|0.15833|-0.34991|4.04487|3.55414|-8.88394|0.09152|0.34".

(** Two rows whose keys differ as written and agree once canonical. *)
Definition duplicate_table : string :=
"Range|Subrange|b0|b1|b2|b3|b4|b5|b6|b7|RMSE
Barren Land|1|2|3|4|5|6|7|8|9
Barren_Land|11|12|13|14|15|16|17|18|19".

(** Ten field names in the header, eleven values after the key in the
    row. *)
Definition surplus_table : string :=
"Range|Subrange|b0|b1|b2|b3|b4|b5|b6|b7|RMSE
S1|0.5|1|0|0|0|0|0|0|0.1|extra|more".

(** A table in the three-column layout of the module's [testdata], with
    a surplus of elements in its row. *)
Definition testdata_like : string :=
"LandCoverClass|TIRS10|TIRS11
Cropland|0.971|0.968|1|2|3|4|5|6|7|8|9".

(** A table whose second data row has three elements. *)
Definition short_second_row_table : string :=
"Range|Subrange|b0|b1|b2|b3|b4|b5|b6|b7|RMSE
S1|0.5|1|0|0|0|0|0|0|0.1
S2|1|2
not even read".

(** A duplicate of the first key in a row of two elements. *)
Definition short_duplicate_table : string :=
"Range|Subrange|b0|b1|b2|b3|b4|b5|b6|b7|RMSE
A|1|2|3|4|5|6|7|8|9
A|1".

(** Two rows that fail for different reasons, and a row whose key is a
    name that cannot be bound. *)
Definition two_failures_table : string :=
"Range|Subrange|b0|b1|b2|b3|b4|b5|b6|b7|RMSE
1bad|1
S2|1|2".

Definition none_key_table : string :=
"Range|Subrange|b0|b1|b2|b3|b4|b5|b6|b7|RMSE
None|1|2|3|4|5|6|7|8|9".

(** The coefficients of the worked example: [b0 = 0.5], [b1 = 1], the
    rest zero. *)
Definition degenerate_coefficients : SplitWindowModel.SplitWindowCoefficients :=
  {| SplitWindowModel.b0 := 0.5; SplitWindowModel.b1 := 1;
     SplitWindowModel.b2 := 0; SplitWindowModel.b3 := 0;
     SplitWindowModel.b4 := 0; SplitWindowModel.b5 := 0;
     SplitWindowModel.b6 := 0; SplitWindowModel.b7 := 0;
     SplitWindowModel.rmse := 0.1 |}.

Definition cropland : SplitWindowModel.Emissivity :=
  {| SplitWindowModel.eps_i := 0.971; SplitWindowModel.eps_j := 0.968 |}.


(** ** [csv_reader] and [main]

    [csv_reader] opens a file and iterates over [csv.reader(csvfile,
    delimiter="|")]. The records that the reader yields, one list of
    fields per line of the file and the empty list for a blank line, are
    the argument here; the loop over them and the final [strip] are the
    function's own. *)

(** [sep.join(l)]. *)
Fixpoint join (sep : string) (l : list string) : string :=
  match l with
  | [] => EmptyString
  | x :: rest =>
      match rest with
      | [] => x
      | _ :: _ => x ++ sep ++ join sep rest
      end
  end.

(** [s.lstrip(c)] and [s.rstrip(c)] for a one-character set. *)
Definition lstrip (c : ascii) (s : string) : string :=
  skip_while (Ascii.eqb c) s.

Fixpoint rstrip (c : ascii) (s : string) : string :=
  match s with
  | EmptyString => EmptyString
  | String b s' =>
      match rstrip c s' with
      | EmptyString => if Ascii.eqb c b then EmptyString else String b EmptyString
      | String _ _ as r => String b r
      end
  end.

(** [s.strip(c)]. *)
Definition strip (c : ascii) (s : string) : string :=
  rstrip c (lstrip c s).

(** The text that the loop of [csv_reader] has gathered after the records
    [rows], starting from [init]. *)
Definition gather (rows : list (list string)) (init : string) : string :=
  fold_left (fun string row => string ++ String newline (join "|" row))
            rows init.

Definition csv_reader (csvreader : list (list string)) : string :=
  let string :=
    fold_left (fun string row => string ++ String newline (join "|" row))
              csvreader EmptyString in
  strip newline string.

(** [main] of [csv_avg_emissivity_to_dictionary.py], without its
    printing: the text of [csv_reader] handed to [csv_to_dictionary]. *)
Definition main (csvreader : list (list string))
  : result (gmap string cwv_class) :=
  let csvstring := csv_reader csvreader in
  csv_to_dictionary csvstring.

(** A field that holds neither the delimiter nor a line break, and a
    record of such fields with at least one field. *)
Definition plain_field (f : string) : bool :=
  absent "|" f && absent newline f.

Definition plain_record (row : list string) : bool :=
  negb (Nat.eqb (length row) 0) && forallb plain_field row.

(** ** [transform]: what a row contributes and when it passes *)

Definition ect_row_class (fields : list string) (row : string) : ect_class :=
  {| ect_typename := row_key row; ect_fields := take 2 fields;
     TIRS10 := is_number (element row 1);
     TIRS11 := is_number (element row 2) |}.

Definition ect_row_ok (fields : list string) (row : string) : bool :=
  (2 <=? length fields)%nat
  && returns (namedtuple (row_key row) (take 2 fields))
  && (3 <=? length (split "|" row))%nat.

(** ** [i.landsat.swlst.py]: [random_digital_numbers]

    [random.randint(1, 2**12)] is an oracle: [randint k] is the number that
    the call number [k] of the run returns. *)

(** The function returns a bare number for [count == 1] and a list
    otherwise. *)
Inductive digital_numbers : Type :=
  | Number (dn : Z)
  | Numbers (dns : list Z).

Definition random_digital_numbers (randint : nat -> Z) (count : Z)
  : result digital_numbers :=
  let digital_numbers := map randint (seq 0 (Z.to_nat count)) in
  if (count =? 1)%Z
  then let* dn := getitem InElements digital_numbers 0 in Ok (Number dn)
  else Ok (Numbers digital_numbers).

(** A valid identifier in the sense of the [namedtuple] checks. *)
Definition identifier (name : string) : bool :=
  all_chars is_name_char name
  && negb (iskeyword name)
  && match name with
     | EmptyString => false
     | String c _ => negb (is_digit c)
     end.

(** What [is_number] can return for the text [s]: the text itself when it
    reads as a number, [False] otherwise; never a converted number. *)
Definition kept_or_False (v : pyval) : bool :=
  match v with
  | PyStr s => numeric_text s
  | PyBool b => negb b
  | PyInt _ => false
  end.

(** ** The outcome of [transform_cwv] on one row

    The exception that [transform_cwv] ends with on [row], whatever the
    dictionary: the access [fields[n]] under a header of [n < 10] field
    names, else what [namedtuple] raises for the names, else the access
    [elements[k]] in a row of [k < 10] elements; [None] for a row that
    passes. *)
Definition row_exception (fields : list string) (row : string) : option exn :=
  if (length fields <? 10)%nat
  then Some (IndexError (InFields (length fields)))
  else match namedtuple (row_key row) (field_names fields) with
       | Raise e => Some e
       | Ok _ =>
           if (length (split "|" row) <? 10)%nat
           then Some (IndexError (InElements (length (split "|" row))))
           else None
       end.
(** * Evaluation on sample inputs *)

Example float_accepts_examples :
  map float_accepts
      ["0.971"; " -1.5e-3 "; "1."; ".5"; "inf"; "-Infinity"; "nan"; "12"]
  = [true; true; true; true; true; true; true; true]
  /\ map float_accepts ["abc"; ""; "."; "1e"; "1.2.3"; "0x10"; "1+2j"; "S1"]
     = [false; false; false; false; false; false; false; false].
Proof. split; vm_compute; reflexivity. Qed.

Example complex_accepts_examples :
  map complex_accepts ["1+2j"; "j"; "-J"; "(1.5-j)"; " 3j "; "1e3+infj"]
  = [true; true; true; true; true; true]
  /\ map complex_accepts ["abc"; ""; "1+2"; "(1+2j"; "1 + 2j"; "Cropland"]
     = [false; false; false; false; false; false].
Proof. split; vm_compute; reflexivity. Qed.

Example replace_examples :
  replace "a.b.c" "." "" = "abc"
  /\ replace "aaaa" "aa" "b" = "bb"
  /\ replace "abc" "" "-" = "-a-b-c-"
  /\ replace "aXbXc" "X" "XX" = "aXXbXXc"
  /\ split "|" "a||b" = ["a"; ""; "b"]
  /\ split "|" "" = [""].
Proof. repeat split; vm_compute; reflexivity. Qed.

(** * Lemmas *)

(** ** [split] *)

Lemma split_nonempty (sep : ascii) (s : string) :
  exists h t, split sep s = h :: t.
Proof.
  destruct s as [|c s]; simpl; [eauto|].
  destruct (Ascii.eqb c sep); [eauto|].
  destruct (split sep s); eauto.
Qed.

(** ** [namedtuple] *)

Lemma namedtuple_Ok (name : string) (fs : list string) (p : string * list string) :
  namedtuple name fs = Ok p -> p = (name, fs).
Proof.
  unfold namedtuple.
  destruct (check_names (name :: fs)); cbn [bind]; [|discriminate].
  destruct (check_fields [] fs); cbn [bind]; [|discriminate].
  destruct (exec_template name fs); cbn [bind]; [|discriminate].
  congruence.
Qed.

(** ** One row *)

(** [transform_cwv] by cases, in the order in which its checks fail. *)
Lemma transform_cwv_cases (fields : list string)
    (d : gmap string cwv_class) (row : string) :
  transform_cwv fields d row =
    if (length fields <? 10)%nat
    then Raise (IndexError (InFields (length fields)))
    else match namedtuple (row_key row) (field_names fields) with
         | Raise e => Raise e
         | Ok _ =>
             if (length (split "|" row) <? 10)%nat
             then Raise (IndexError (InElements (length (split "|" row))))
             else Ok (<[row_key row :=
                          default (row_class fields row) (d !! row_key row)]> d)
         end.
Proof.
  unfold transform_cwv, row_class, row_key, field_names, element.
  destruct (split_nonempty "|" row) as (e0 & es & ->).
  cbn [getitem lookup list_lookup bind nth].
  do 10 (destruct fields as [|? fields]; [reflexivity|]).
  cbv [firstn].
  cbn [getitem lookup list_lookup bind nth length Nat.ltb Nat.leb map].
  match goal with
  | |- context [namedtuple ?n ?fs] => destruct (namedtuple n fs) as [p|e] eqn:Hnt
  end; cbn [bind]; [|reflexivity].
  apply namedtuple_Ok in Hnt; subst p; cbn [fst snd].
  do 9 (destruct es as [|? es]; [reflexivity|]).
  reflexivity.
Qed.

(** [namedtuple] raises only its own validation errors. *)
Lemma check_name_Raise (name : string) (e : exn) :
  check_name name = Raise e -> name_error e.
Proof.
  unfold check_name.
  destruct (negb (all_chars is_name_char name)); [intros [= <-]; exact I|].
  destruct (iskeyword name); [intros [= <-]; exact I|].
  destruct name as [|c name]; [intros [= <-]; exact I|].
  destruct (is_digit c); [intros [= <-]; exact I|discriminate].
Qed.

Lemma check_names_Raise (names : list string) (e : exn) :
  check_names names = Raise e -> name_error e.
Proof.
  induction names as [|name names IH]; simpl; [discriminate|].
  destruct (check_name name) as [[]|e'] eqn:Hn; simpl.
  - exact IH.
  - intros [= <-]. eapply check_name_Raise; eassumption.
Qed.

Lemma check_fields_Raise (seen names : list string) (e : exn) :
  check_fields seen names = Raise e -> name_error e.
Proof.
  revert seen.
  induction names as [|name names IH]; intros seen; cbn [check_fields].
  - discriminate.
  - destruct (starts_with "_" name); [intros [= <-]; exact I|].
    destruct (existsb (String.eqb name) seen); [intros [= <-]; exact I|].
    apply IH.
Qed.

Lemma namedtuple_Raise (name : string) (fs : list string) (e : exn) :
  namedtuple name fs = Raise e -> name_error e.
Proof.
  unfold namedtuple.
  destruct (check_names (name :: fs)) as [[]|e1] eqn:H1; cbn [bind].
  - destruct (check_fields [] fs) as [[]|e2] eqn:H2; cbn [bind].
    + unfold exec_template.
      destruct (find forbidden_name (name :: fs)); cbn [bind];
        [intros [= <-]; exact I|discriminate].
    + intros [= <-]. eapply check_fields_Raise; eassumption.
  - intros [= <-]. eapply check_names_Raise; eassumption.
Qed.

Lemma transform_cwv_ok (fields : list string) (d : gmap string cwv_class)
    (row : string) :
  row_ok fields row = true ->
  transform_cwv fields d row =
    Ok (<[row_key row := default (row_class fields row) (d !! row_key row)]> d).
Proof.
  unfold row_ok. intros H.
  apply andb_prop in H as [H Helts]. apply andb_prop in H as [Hflds Hnt].
  apply Nat.leb_le in Hflds, Helts.
  rewrite transform_cwv_cases.
  destruct (Nat.ltb_spec (length fields) 10) as [?|_]; [lia|].
  destruct (namedtuple (row_key row) (field_names fields)); [|discriminate].
  destruct (Nat.ltb_spec (length (split "|" row)) 10) as [?|_]; [lia|].
  reflexivity.
Qed.

Lemma transform_cwv_raise (fields : list string) (d : gmap string cwv_class)
    (row : string) :
  row_ok fields row = false ->
  exists e, transform_cwv fields d row = Raise e /\ row_error fields e.
Proof.
  unfold row_ok. intros H. rewrite transform_cwv_cases.
  destruct (Nat.ltb_spec (length fields) 10) as [Hf|Hf].
  { eexists; split; [reflexivity|]. simpl. lia. }
  destruct (namedtuple (row_key row) (field_names fields)) as [p|e] eqn:Hnt.
  - destruct (Nat.ltb_spec (length (split "|" row)) 10) as [He|He].
    + eexists; split; [reflexivity|]. simpl.
      destruct (split_nonempty "|" row) as (h & t & Hs).
      rewrite Hs in *. simpl in *. lia.
    + exfalso. apply Nat.leb_le in Hf, He. rewrite Hf, He in H. discriminate.
  - exists e; split; [reflexivity|].
    apply namedtuple_Raise in Hnt.
    destruct e as [[|n|k|name]|name|name]; simpl in *;
      solve [lia | contradiction].
Qed.

(** ** All rows *)

Lemma map_rows_ok (fields rows : list string) (d : gmap string cwv_class) :
  forallb (row_ok fields) rows = true ->
  map_rows (transform_cwv fields) rows d = Ok (feed fields rows d).
Proof.
  revert d. induction rows as [|row rows IH]; intros d H; simpl in *.
  - reflexivity.
  - apply andb_prop in H as [Hrow Hrows].
    rewrite (transform_cwv_ok _ _ _ Hrow). cbn [bind].
    apply IH, Hrows.
Qed.

Lemma map_rows_raise (fields rows : list string) (d : gmap string cwv_class) :
  forallb (row_ok fields) rows = false ->
  exists e, map_rows (transform_cwv fields) rows d = Raise e
            /\ row_error fields e.
Proof.
  revert d. induction rows as [|row rows IH]; intros d H; simpl in *.
  - discriminate.
  - destruct (row_ok fields row) eqn:Hrow; simpl in H.
    + rewrite (transform_cwv_ok _ _ _ Hrow). cbn [bind]. apply IH, H.
    + destruct (transform_cwv_raise fields d row Hrow) as (e & -> & He).
      exists e. split; [reflexivity|exact He].
Qed.

Lemma csv_to_dictionary_rows (table : string) :
  csv_to_dictionary table =
    map_rows (transform_cwv (header_fields table)) (data_rows table) ∅.
Proof.
  unfold csv_to_dictionary, header_fields, data_rows.
  destruct (split_nonempty newline table) as (h & t & ->). reflexivity.
Qed.

(** ** The dictionary that the rows leave behind *)

Lemma feed_lookup (fields rows : list string) (d : gmap string cwv_class)
    (key : string) :
  feed fields rows d !! key =
    match d !! key with
    | Some c => Some c
    | None => row_class fields <$> first_row key rows
    end.
Proof.
  revert d. induction rows as [|row rows IH]; intros d.
  - simpl. destruct (d !! key); reflexivity.
  - change (feed fields (row :: rows) d)
      with (feed fields rows
              (<[row_key row :=
                   default (row_class fields row) (d !! row_key row)]> d)).
    rewrite IH. unfold first_row. cbn [find].
    destruct (String.eqb_spec (row_key row) key) as [->|Hne].
    + rewrite lookup_insert_eq. destruct (d !! key); reflexivity.
    + rewrite lookup_insert_ne by exact Hne. reflexivity.
Qed.

Lemma first_row_at (rows : list string) (i : nat) (row : string) :
  rows !! i = Some row ->
  (forall i' r', (i' < i)%nat -> rows !! i' = Some r' ->
                 row_key r' <> row_key row) ->
  first_row (row_key row) rows = Some row.
Proof.
  revert i. induction rows as [|r rows IH]; intros i Hi Hfirst.
  - destruct i; discriminate.
  - unfold first_row. cbn [find].
    destruct i as [|i]; simpl in Hi.
    + injection Hi as ->. rewrite String.eqb_refl. reflexivity.
    + destruct (String.eqb_spec (row_key r) (row_key row)) as [Heq|_].
      * exfalso. apply (Hfirst 0%nat r); [lia|reflexivity|exact Heq].
      * apply (IH i Hi). intros i' r' Hlt Hr'.
        apply (Hfirst (S i') r'); [lia|exact Hr'].
Qed.

Lemma first_row_NoDup (rows : list string) (row : string) :
  NoDup (map row_key rows) -> In row rows ->
  first_row (row_key row) rows = Some row.
Proof.
  induction rows as [|r rows IH]; intros Hnd Hin; [destruct Hin|].
  unfold first_row. cbn [find].
  apply NoDup_cons in Hnd as [Hr Hnd].
  destruct Hin as [->|Hin]; [rewrite String.eqb_refl; reflexivity|].
  destruct (String.eqb_spec (row_key r) (row_key row)) as [Heq|_].
  - exfalso. apply Hr. rewrite Heq.
    apply list_elem_of_In, in_map, Hin.
  - apply IH; assumption.
Qed.

(** ** [is_number] on text *)

Lemma is_number_text (s : string) :
  is_number s = if numeric_text s then PyStr s else PyBool false.
Proof.
  unfold is_number, numeric_text.
  destruct (float_accepts s), (complex_accepts s); reflexivity.
Qed.

Lemma attributes_row_class (fields : list string) (row : string) (i : nat) :
  (i < 10)%nat ->
  attributes (row_class fields row) !! i =
    Some (if numeric_text (element row i)
          then PyStr (element row i) else PyBool false).
Proof.
  intros Hi. unfold attributes, row_class; cbn [subrange b0 b1 b2 b3 b4 b5 b6 b7 rmse].
  do 10 (destruct i as [|i]; [cbn [lookup list_lookup]; rewrite is_number_text; reflexivity|]).
  lia.
Qed.

(** * The table: dictionary construction *)

(** Table construction returns a dictionary exactly when every data row
    passes the positional checks of [transform_cwv]. *)
Lemma csv_to_dictionary_returns_iff_rows_ok (table : string) :
  returns (csv_to_dictionary table) = table_ok table.
Proof.
  rewrite csv_to_dictionary_rows. unfold table_ok.
  destruct (forallb (row_ok (header_fields table)) (data_rows table)) eqn:H.
  - rewrite (map_rows_ok _ _ _ H). reflexivity.
  - destruct (map_rows_raise _ _ ∅ H) as (e & -> & _). reflexivity.
Qed.

Lemma row_exception_raise (fields : list string) (d : gmap string cwv_class)
    (row : string) (e : exn) :
  row_exception fields row = Some e -> transform_cwv fields d row = Raise e.
Proof.
  rewrite transform_cwv_cases. unfold row_exception.
  destruct (length fields <? 10)%nat; [intros [= <-]; reflexivity|].
  destruct (namedtuple (row_key row) (field_names fields));
    [|intros [= <-]; reflexivity].
  destruct (length (split "|" row) <? 10)%nat;
    [intros [= <-]; reflexivity|discriminate].
Qed.

Lemma row_exception_None (fields : list string) (row : string) :
  row_exception fields row = None <-> row_ok fields row = true.
Proof.
  unfold row_exception, row_ok.
  destruct (Nat.ltb_spec (length fields) 10) as [Hf|Hf];
    destruct (Nat.leb_spec 10 (length fields)); try lia; cbn [andb];
    [split; discriminate|].
  destruct (namedtuple (row_key row) (field_names fields)); cbn [returns andb];
    [|split; discriminate].
  destruct (Nat.ltb_spec (length (split "|" row)) 10);
    destruct (Nat.leb_spec 10 (length (split "|" row))); try lia;
    split; try discriminate; reflexivity.
Qed.

(** C7 (as amended). The number of values of a row is never compared with
    the number of header fields. Table construction returns a dictionary
    exactly when every data row passes the positional checks of
    [transform_cwv] (ten field names in the header, names that
    [namedtuple] accepts, ten elements in the row), and then it is the
    dictionary fed with all the rows in order. Otherwise it ends with the
    exception of the first row that fails, the rows before it having
    passed: [fields[n]], what [namedtuple] raises for the names, or
    [elements[k]]. *)
Theorem csv_to_dictionary_aborts_at_first_failing_row (table : string) :
  returns (csv_to_dictionary table) = table_ok table
  /\ (table_ok table = true ->
      csv_to_dictionary table
      = Ok (feed (header_fields table) (data_rows table) ∅))
  /\ (forall pre row post,
        data_rows table = (pre ++ row :: post)%list ->
        forallb (row_ok (header_fields table)) pre = true ->
        row_ok (header_fields table) row = false ->
        exists e,
          row_exception (header_fields table) row = Some e
          /\ csv_to_dictionary table = Raise e).
Proof.
  split; [apply csv_to_dictionary_returns_iff_rows_ok|]. split.
  - intros Hok. rewrite csv_to_dictionary_rows. apply map_rows_ok, Hok.
  - intros pre row post Hrows Hpre Hrow.
    destruct (row_exception (header_fields table) row) as [e|] eqn:He.
    + exists e. split; [reflexivity|].
      rewrite csv_to_dictionary_rows, Hrows. clear Hrows.
      generalize (∅ : gmap string cwv_class).
      induction pre as [|r pre IH]; intros d.
      * cbn [app map_rows]. rewrite (row_exception_raise _ d _ _ He).
        reflexivity.
      * cbn [forallb] in Hpre. apply andb_prop in Hpre as [Hr Hpre].
        cbn [app map_rows]. rewrite (transform_cwv_ok _ _ _ Hr). cbn [bind].
        apply IH, Hpre.
    + apply row_exception_None in He. rewrite He in Hrow. discriminate.
Qed.

(** Two tables that end at their first failing row: a key that begins
    with a digit before a short row, and the key [None]. *)
Example first_failing_row_examples :
  csv_to_dictionary two_failures_table = Raise (ValueError "1bad")
  /\ csv_to_dictionary none_key_table = Raise (SyntaxError "None").
Proof. split; vm_compute; reflexivity. Qed.

(** C7, counterexample. The row of [surplus_table] has eleven values, its
    header ten field names, and the dictionary is built all the same. *)
Lemma surplus_values_are_accepted :
  length (header_fields surplus_table) = 10%nat
  /\ map (fun row => length (split "|" row) - 1)%nat (data_rows surplus_table)
     = [11%nat]
  /\ returns (csv_to_dictionary surplus_table) = true.
Proof. repeat split; vm_compute; reflexivity. Qed.

(** C10 (as amended). Every data row goes through [transform_cwv], so a
    table with a data row of fewer than ten elements builds no dictionary:
    the call ends in an exception, which is the access [fields[n]] when
    the header has only [n < 10] field names, and otherwise an access
    [elements[k]] with [1 <= k < 10] or what [namedtuple] raises for
    the names. *)
Theorem short_row_aborts (table : string) :
  existsb short_row (data_rows table) = true ->
  exists e, csv_to_dictionary table = Raise e
            /\ row_error (header_fields table) e.
Proof.
  intros Hshort. rewrite csv_to_dictionary_rows.
  apply map_rows_raise.
  apply existsb_exists in Hshort as (row & Hin & Hrow).
  destruct (forallb (row_ok (header_fields table)) (data_rows table)) eqn:Hall;
    [|reflexivity].
  exfalso.
  rewrite forallb_forall in Hall. specialize (Hall row Hin).
  unfold row_ok in Hall. apply andb_prop in Hall as [_ Hlen].
  unfold short_row in Hrow.
  apply Nat.leb_le in Hlen. apply Nat.ltb_lt in Hrow. lia.
Qed.

(** The theorem at the embedded table. *)
Lemma short_row_aborts_witness :
  existsb short_row (data_rows csv) = true
  /\ exists e, csv_to_dictionary csv = Raise e
               /\ row_error (header_fields csv) e.
Proof.
  split; [vm_compute; reflexivity|].
  apply (short_row_aborts csv). vm_compute; reflexivity.
Defined.

(** C10, counterexample. On the embedded three-column table the failing
    access is [fields[2]], made before any element beyond the key is
    read; it is no access to [elements]. *)
Lemma embedded_table_fails_on_fields :
  forallb short_row (data_rows csv) = true
  /\ csv_to_dictionary csv = Raise (IndexError (InFields 2))
  /\ forall i, csv_to_dictionary csv <> Raise (IndexError (InElements i)).
Proof.
  assert (H : csv_to_dictionary csv = Raise (IndexError (InFields 2)))
    by (vm_compute; reflexivity).
  split; [vm_compute; reflexivity|]. split; [exact H|].
  intros i. rewrite H. discriminate.
Qed.

(** C6 (as amended). In a table that [csv_to_dictionary] accepts, of two
    rows whose keys are equal after canonicalisation the first wins: when
    row [i] is the first row with its key and a later row [j] has the same
    key, the dictionary is built, and looking the key up gives the class
    made from row [i]. Its ten attributes are the first ten elements of
    row [i], an element that is the text of a number kept as that text
    and any other element replaced by [False]; nothing of row [j] is in
    it. *)
Theorem first_row_wins (table : string) (i j : nat) (ri rj : string) :
  table_ok table = true ->
  data_rows table !! i = Some ri ->
  data_rows table !! j = Some rj ->
  (i < j)%nat ->
  row_key ri = row_key rj ->
  (forall i' r', (i' < i)%nat -> data_rows table !! i' = Some r' ->
                 row_key r' <> row_key ri) ->
  exists d c,
    csv_to_dictionary table = Ok d
    /\ d !! row_key rj = Some c
    /\ c = row_class (header_fields table) ri
    /\ typename c = row_key ri
    /\ _fields c = field_names (header_fields table)
    /\ forall k, (k < 10)%nat ->
         attributes c !! k =
           Some (if numeric_text (element ri k)
                 then PyStr (element ri k) else PyBool false).
Proof.
  intros Hok Hi Hj Hlt Hkey Hfirst.
  exists (feed (header_fields table) (data_rows table) ∅),
         (row_class (header_fields table) ri).
  split; [|split; [|split; [reflexivity|split; [reflexivity|split]]]].
  - rewrite csv_to_dictionary_rows. apply map_rows_ok, Hok.
  - rewrite feed_lookup, lookup_empty, <- Hkey.
    rewrite (first_row_at _ i ri Hi Hfirst). reflexivity.
  - reflexivity.
  - intros k Hk. apply attributes_row_class, Hk.
Qed.

(** The theorem at [duplicate_table], rows 0 and 1. *)
Lemma first_row_wins_witness :
  table_ok duplicate_table = true
  /\ row_key "Barren Land|1|2|3|4|5|6|7|8|9"
     = row_key "Barren_Land|11|12|13|14|15|16|17|18|19"
  /\ exists d c,
    csv_to_dictionary duplicate_table = Ok d
    /\ d !! "Barren_Land" = Some c
    /\ c = row_class (header_fields duplicate_table)
                     "Barren Land|1|2|3|4|5|6|7|8|9"
    /\ typename c = "Barren_Land"
    /\ _fields c = field_names (header_fields duplicate_table)
    /\ forall k, (k < 10)%nat ->
         attributes c !! k =
           Some (if numeric_text (element "Barren Land|1|2|3|4|5|6|7|8|9" k)
                 then PyStr (element "Barren Land|1|2|3|4|5|6|7|8|9" k)
                 else PyBool false).
Proof.
  split; [vm_compute; reflexivity|]. split; [vm_compute; reflexivity|].
  apply (first_row_wins duplicate_table 0 1
           "Barren Land|1|2|3|4|5|6|7|8|9"
           "Barren_Land|11|12|13|14|15|16|17|18|19").
  - vm_compute; reflexivity.
  - vm_compute; reflexivity.
  - vm_compute; reflexivity.
  - lia.
  - vm_compute; reflexivity.
  - intros i' r' Hlt. lia.
Defined.

(** C6, counterexample. In [short_duplicate_table] the second row has the
    key of the first and two elements only: it is not discarded, the call
    ends with the [IndexError] of [elements[2]] and no dictionary is
    returned. And in [duplicate_table], which is accepted, the class under
    the shared key holds [False] where the first row has the text
    [Barren Land], and the text [1] where it has the number 1. *)
Lemma later_short_duplicate_aborts :
  map row_key (data_rows short_duplicate_table) = ["A"; "A"]
  /\ csv_to_dictionary short_duplicate_table
     = Raise (IndexError (InElements 2))
  /\ exists d c,
       csv_to_dictionary duplicate_table = Ok d
       /\ d !! "Barren_Land" = Some c
       /\ element "Barren Land|1|2|3|4|5|6|7|8|9" 0 = "Barren Land"
       /\ subrange c = PyBool false
       /\ b0 c = PyStr "1".
Proof.
  split; [vm_compute; reflexivity|]. split; [vm_compute; reflexivity|].
  exists (feed (header_fields duplicate_table) (data_rows duplicate_table) ∅),
         (row_class (header_fields duplicate_table)
                    "Barren Land|1|2|3|4|5|6|7|8|9").
  split; [|split]; [| |repeat split; vm_compute; reflexivity].
  - rewrite csv_to_dictionary_rows. apply map_rows_ok. vm_compute; reflexivity.
  - rewrite feed_lookup, lookup_empty. vm_compute; reflexivity.
Qed.

(** C1 (as amended). In a table that [csv_to_dictionary] accepts and whose
    canonical keys are pairwise distinct, the dictionary is built and the
    canonical key of every row leads to the class of that row: its ten
    attributes are the first ten elements of the row, an element that is
    the text of a number kept as that text, any other element replaced by
    [False]. *)
Theorem lookup_returns_row_fields (table : string) :
  table_ok table = true ->
  NoDup (map row_key (data_rows table)) ->
  exists d,
    csv_to_dictionary table = Ok d
    /\ forall row, In row (data_rows table) ->
         exists c,
           d !! row_key row = Some c
           /\ typename c = row_key row
           /\ forall i, (i < 10)%nat ->
                attributes c !! i =
                  Some (if numeric_text (element row i)
                        then PyStr (element row i) else PyBool false).
Proof.
  intros Hok Hnd.
  exists (feed (header_fields table) (data_rows table) ∅).
  split.
  - rewrite csv_to_dictionary_rows. apply map_rows_ok, Hok.
  - intros row Hin. exists (row_class (header_fields table) row).
    split; [|split; [reflexivity|]].
    + rewrite feed_lookup, lookup_empty.
      rewrite (first_row_NoDup _ _ Hnd Hin). reflexivity.
    + intros i Hi. apply attributes_row_class, Hi.
Qed.

(** The theorem at [cwv_table]. *)
Lemma lookup_returns_row_fields_witness :
  table_ok cwv_table = true
  /\ NoDup (map row_key (data_rows cwv_table))
  /\ exists d,
       csv_to_dictionary cwv_table = Ok d
       /\ forall row, In row (data_rows cwv_table) ->
            exists c,
              d !! row_key row = Some c
              /\ typename c = row_key row
              /\ forall i, (i < 10)%nat ->
                   attributes c !! i =
                     Some (if numeric_text (element row i)
                           then PyStr (element row i) else PyBool false).
Proof.
  assert (Hnd : NoDup (map row_key (data_rows cwv_table))).
  { change (NoDup ["S1"; "S2"]).
    repeat constructor; rewrite ?elem_of_cons, ?elem_of_nil;
      intuition discriminate. }
  split; [vm_compute; reflexivity|]. split; [exact Hnd|].
  apply (lookup_returns_row_fields cwv_table); [vm_compute; reflexivity|exact Hnd].
Defined.

(** C1, counterexample. In [cwv_table] the key [S1] leads to a class whose
    [b0] is the text of [0.5], not a number, and whose [rmse] is [False],
    not the text [n/a] of the source row. *)
Lemma numeric_text_is_kept_and_other_text_is_lost :
  table_ok cwv_table = true
  /\ map row_key (data_rows cwv_table) = ["S1"; "S2"]
  /\ exists d c,
       csv_to_dictionary cwv_table = Ok d
       /\ d !! "S1" = Some c
       /\ element "S1|0.5|1|0|0|0|0|0|0|n/a" 1 = "0.5"
       /\ b0 c = PyStr "0.5"
       /\ converted_or_verbatim "0.5" (b0 c) = false
       /\ element "S1|0.5|1|0|0|0|0|0|0|n/a" 9 = "n/a"
       /\ rmse c = PyBool false
       /\ converted_or_verbatim "n/a" (rmse c) = false.
Proof.
  split; [vm_compute; reflexivity|]. split; [vm_compute; reflexivity|].
  exists (feed (header_fields cwv_table) (data_rows cwv_table) ∅),
         (row_class (header_fields cwv_table) "S1|0.5|1|0|0|0|0|0|0|n/a").
  split; [|split]; [| |repeat split; vm_compute; reflexivity].
  - rewrite csv_to_dictionary_rows. apply map_rows_ok. vm_compute; reflexivity.
  - rewrite feed_lookup, lookup_empty. vm_compute; reflexivity.
Qed.

(** * [is_number] *)

(** C2 (as amended). [is_number] is total on strings: it has a value for
    every string and raises for none. It tries the float reading, then
    the complex reading; when one of them succeeds it returns the string
    unchanged, and when both fail it returns [False]. *)
Theorem is_number_returns_value_or_False :
  (forall s, float_accepts s = true -> is_number s = PyStr s)
  /\ (forall s, float_accepts s = false -> complex_accepts s = true ->
                is_number s = PyStr s)
  /\ (forall s, float_accepts s = false -> complex_accepts s = false ->
                is_number s = PyBool false)
  /\ (forall s, is_number s = PyStr s \/ is_number s = PyBool false).
Proof.
  repeat split.
  - intros s H. unfold is_number. rewrite H. reflexivity.
  - intros s H1 H2. unfold is_number. rewrite H1, H2. reflexivity.
  - intros s H1 H2. unfold is_number. rewrite H1, H2. reflexivity.
  - intros s. rewrite is_number_text.
    destruct (numeric_text s); [left|right]; reflexivity.
Qed.

(** C2, counterexample. Neither reading accepts [abc], and the result is
    [False], not the string that was passed in. *)
Lemma is_number_of_other_text_is_False :
  float_accepts "abc" = false
  /\ complex_accepts "abc" = false
  /\ is_number "abc" = PyBool false
  /\ is_number "abc" <> PyStr "abc".
Proof.
  repeat split; try (vm_compute; reflexivity).
  vm_compute. discriminate.
Qed.

(** * [replace_dot_comma_space] *)

(** C5. Canonicalisation is the fixed chain of seven replacements: full
    stops removed, then comma-space, comma and space each turned into an
    underscore, the two parentheses removed, the slash turned into an
    underscore. It takes [Barren Land] to [Barren_Land] and [Snow and ice]
    to [Snow_and_ice]. *)
Theorem replace_dot_comma_space_chain :
  (forall s,
     replace_dot_comma_space s =
       replace
         (replace
            (replace
               (replace
                  (replace (replace (replace s "." "") ", " "_") "," "_")
                  " " "_")
               "(" "")
            ")" "")
         "/" "_")
  /\ replace_dot_comma_space "Barren Land" = "Barren_Land"
  /\ replace_dot_comma_space "Snow and ice" = "Snow_and_ice"
  /\ replace_dot_comma_space "a.b, c,d e(f)/g" = "ab_c_d_ef_g".
Proof.
  split; [intros s; reflexivity|].
  repeat split; vm_compute; reflexivity.
Qed.

(** * [str.replace]: one pass over text built from pieces *)

Section OnePass.

Variables old new : string.

Lemma starts_with_app (rest : string) :
  starts_with old (old ++ rest) = true.
Proof.
  induction old as [|a old' IH]; simpl; [reflexivity|].
  rewrite Ascii.eqb_refl. exact IH.
Qed.

Lemma starts_with_may_begin (s rest : string) :
  starts_with old (s ++ rest) = true -> may_begin old s = true.
Proof.
  revert s. induction old as [|a old' IH]; intros s; [reflexivity|].
  destruct s as [|b s]; [reflexivity|]. simpl.
  intros H. apply andb_prop in H as [Hab H].
  rewrite Hab. simpl. apply IH, H.
Qed.

(** Text in which [old] cannot begin is copied. *)
Lemma replace_scan_inert (s rest : string) :
  inert old s = true ->
  replace_scan old new 0 (s ++ rest) = s ++ replace_scan old new 0 rest.
Proof.
  induction s as [|c s IH]; intros Hs; [reflexivity|].
  cbn [inert] in Hs. apply andb_prop in Hs as [Hc Hs].
  change (String c s ++ rest) with (String c (s ++ rest)).
  cbn [replace_scan].
  destruct (starts_with old (String c (s ++ rest))) eqn:Hsw.
  - apply (starts_with_may_begin (String c s) rest) in Hsw.
    rewrite Hsw in Hc. discriminate.
  - rewrite (IH Hs). reflexivity.
Qed.

(** The characters of an occurrence are dropped. *)
Lemma replace_scan_skip (t rest : string) :
  replace_scan old new (String.length t) (t ++ rest)
  = replace_scan old new 0 rest.
Proof.
  induction t as [|c t IH]; [reflexivity|]. exact IH.
Qed.

(** An occurrence is replaced and the scan goes on behind it. *)
Lemma replace_scan_hit (rest : string) :
  old <> EmptyString ->
  replace_scan old new 0 (old ++ rest)
  = new ++ replace_scan old new 0 rest.
Proof.
  intros Hold.
  pose proof (starts_with_app rest) as Hsw.
  pose proof replace_scan_skip as Hskip.
  destruct old as [|a old']; [contradiction|].
  change (String a old' ++ rest) with (String a (old' ++ rest)) in *.
  cbn [replace_scan]. rewrite Hsw.
  replace (String.length (String a old') - 1)%nat with (String.length old')
    by (cbn [String.length]; lia).
  rewrite Hskip. reflexivity.
Qed.

Lemma replace_nonempty (s : string) :
  old <> EmptyString -> replace s old new = replace_scan old new 0 s.
Proof. unfold replace. destruct old; [contradiction|reflexivity]. Qed.

(** One pass for the token in the first slot of a template: every
    occurrence of the token becomes [new], while the literal text and the
    text [other] in the second slot, both inert, stay. *)
Lemma replace_first_slot (other : string) (tpl : list piece) :
  old <> EmptyString ->
  literals_inert old tpl = true ->
  inert old other = true ->
  replace (instantiate old other tpl) old new = instantiate new other tpl.
Proof.
  intros Hold Hlit Hother. rewrite (replace_nonempty _ Hold).
  induction tpl as [|p tpl IH]; [reflexivity|].
  cbn [literals_inert forallb] in Hlit.
  apply andb_prop in Hlit as [Hp Htpl]. specialize (IH Htpl).
  cbn [instantiate]. destruct p as [text| |]; cbn [render_piece].
  - rewrite (replace_scan_inert _ _ Hp), IH. reflexivity.
  - rewrite (replace_scan_hit _ Hold), IH. reflexivity.
  - rewrite (replace_scan_inert _ _ Hother), IH. reflexivity.
Qed.

(** The same for the token in the second slot. *)
Lemma replace_second_slot (other : string) (tpl : list piece) :
  old <> EmptyString ->
  literals_inert old tpl = true ->
  inert old other = true ->
  replace (instantiate other old tpl) old new = instantiate other new tpl.
Proof.
  intros Hold Hlit Hother. rewrite (replace_nonempty _ Hold).
  induction tpl as [|p tpl IH]; [reflexivity|].
  cbn [literals_inert forallb] in Hlit.
  apply andb_prop in Hlit as [Hp Htpl]. specialize (IH Htpl).
  cbn [instantiate]. destruct p as [text| |]; cbn [render_piece].
  - rewrite (replace_scan_inert _ _ Hp), IH. reflexivity.
  - rewrite (replace_scan_inert _ _ Hother), IH. reflexivity.
  - rewrite (replace_scan_hit _ Hold), IH. reflexivity.
Qed.

(** What a pass leaves of a property of the characters: they come from
    the scanned text or from [new]. *)
Lemma all_chars_app (p : ascii -> bool) (s t : string) :
  all_chars p (s ++ t) = all_chars p s && all_chars p t.
Proof.
  induction s as [|c s IH]; simpl; [reflexivity|].
  rewrite IH. apply andb_assoc.
Qed.

Lemma replace_scan_all_chars (p : ascii -> bool) (s : string) (skip : nat) :
  all_chars p s = true -> all_chars p new = true ->
  all_chars p (replace_scan old new skip s) = true.
Proof.
  intros Hs Hnew. revert skip.
  induction s as [|c s IH]; intros skip; [reflexivity|].
  cbn [all_chars] in Hs. apply andb_prop in Hs as [Hc Hs].
  cbn [replace_scan]. destruct skip as [|k]; [|apply IH, Hs].
  destruct (starts_with old (String c s)).
  - rewrite all_chars_app, Hnew. apply IH, Hs.
  - cbn [all_chars]. rewrite Hc. apply IH, Hs.
Qed.

Lemma replace_all_chars (p : ascii -> bool) (s : string) :
  all_chars p s = true -> all_chars p new = true ->
  all_chars p (replace s old new) = true.
Proof.
  intros Hs Hnew. unfold replace.
  pose proof (replace_scan_all_chars p s 0 Hs Hnew) as Hscan.
  destruct old as [|a old']; [|exact Hscan]. clear Hscan.
  induction s as [|c s IH]; [exact Hnew|].
  cbn [all_chars] in Hs. apply andb_prop in Hs as [Hc Hs].
  cbn [replace_empty]. rewrite all_chars_app, Hnew.
  cbn [all_chars]. rewrite Hc. apply IH, Hs.
Qed.

End OnePass.

(** Replacing a single character by text without it removes it. *)
Lemma replace_char_absent (c : ascii) (new s : string) :
  absent c new = true ->
  absent c (replace s (String c EmptyString) new) = true.
Proof.
  intros Hnew. unfold replace, absent.
  induction s as [|b s IH]; [reflexivity|].
  cbn [replace_scan starts_with String.length Nat.sub].
  rewrite andb_true_r.
  destruct (Ascii.eqb_spec c b) as [->|Hne].
  - rewrite all_chars_app. fold (absent b new). rewrite Hnew. exact IH.
  - cbn [all_chars]. rewrite IH, andb_true_r.
    destruct (Ascii.eqb_spec b c) as [->|_]; [contradiction|reflexivity].
Qed.

Lemma replace_keeps_absent (c : ascii) (old new s : string) :
  absent c s = true -> absent c new = true ->
  absent c (replace s old new) = true.
Proof. apply replace_all_chars. Qed.

Lemma plain_literals_inert (tpl : list piece) :
  plain tpl = true ->
  literals_inert Input_T10 tpl = true /\ literals_inert Input_T11 tpl = true.
Proof.
  unfold plain, literals_inert.
  induction tpl as [|p tpl IH]; simpl; [split; reflexivity|].
  intros H. apply andb_prop in H as [Hp Htpl].
  destruct (IH Htpl) as [H10 H11]. rewrite H10, H11.
  destruct p as [text| |]; try (split; reflexivity).
  apply andb_prop in Hp as [-> ->]. split; reflexivity.
Qed.

Lemma Input_T10_nonempty : Input_T10 <> EmptyString.
Proof. discriminate. Qed.

Lemma Input_T11_nonempty : Input_T11 <> EmptyString.
Proof. discriminate. Qed.

(** Neither token can begin inside the other. *)
Lemma tokens_inert :
  inert Input_T10 Input_T11 = true /\ inert Input_T11 Input_T10 = true.
Proof. split; vm_compute; reflexivity. Qed.

(** * [replace_dummies] *)

(** C4 (as amended). For an expression made of placeholder tokens and of
    literal text in which no token begins, and a value for [Input_T10]
    whose text gives no beginning to an [Input_T11] token, the result has
    every [Input_T10] token replaced by the text of [t10], every
    [Input_T11] token by the text of [t11], and the literal text
    unaltered. The function returns a string for every input; no
    exception is involved. *)
Theorem replace_dummies_binds_tokens (tpl : list piece) (t10 t11 : pyval) :
  plain tpl = true ->
  inert Input_T11 (py_str t10) = true ->
  replace_dummies (render tpl) t10 t11
  = instantiate (py_str t10) (py_str t11) tpl.
Proof.
  intros Hplain Hx.
  destruct (plain_literals_inert tpl Hplain) as [H10 H11].
  destruct tokens_inert as [Hba _].
  unfold replace_dummies, replacements_dummies, reduce_replace, render.
  cbn [fold_left fst snd].
  rewrite (replace_first_slot _ _ _ _ Input_T10_nonempty H10 Hba).
  apply (replace_second_slot _ _ _ _ Input_T11_nonempty H11 Hx).
Qed.

(** The theorem at an expression that also mentions [Input_T12], with a
    text for [Input_T11] that contains the other token. *)
Lemma replace_dummies_binds_tokens_witness :
  plain [Lit "0.5 + ("; T10; Lit " + "; T11; Lit ") / 2 + Input_T12"] = true
  /\ inert Input_T11 (py_str (PyInt 300)) = true
  /\ replace_dummies "0.5 + (Input_T10 + Input_T11) / 2 + Input_T12"
                     (PyInt 300) (PyStr "B11_Input_T10")
     = "0.5 + (300 + B11_Input_T10) / 2 + Input_T12".
Proof.
  split; [vm_compute; reflexivity|]. split; [vm_compute; reflexivity|].
  apply (replace_dummies_binds_tokens
           [Lit "0.5 + ("; T10; Lit " + "; T11; Lit ") / 2 + Input_T12"]
           (PyInt 300) (PyStr "B11_Input_T10"));
    vm_compute; reflexivity.
Defined.

(** C4, counterexample. The expression mentions [Input_T12], for which the
    replacement pairs hold no value; the call returns a string all the
    same, with that token still in it. *)
Lemma unbound_token_is_left_in_place :
  occurs "Input_T12" "Input_T12 + Input_T10" = true
  /\ map fst (replacements_dummies (PyInt 1) (PyInt 2))
     = ["Input_T10"; "Input_T11"]
  /\ replace_dummies "Input_T12 + Input_T10" (PyInt 1) (PyInt 2)
     = "Input_T12 + 1"
  /\ occurs "Input_T12"
            (replace_dummies "Input_T12 + Input_T10" (PyInt 1) (PyInt 2))
     = true.
Proof. repeat split; vm_compute; reflexivity. Qed.

(** C3 (as amended). Binding is two passes of [str.replace] in a fixed
    order, and the second pass reads the output of the first. For an
    expression made of placeholder tokens and of literal text in which no
    token begins, and two values whose texts give no beginning to the
    other token, both orders of the two passes give the single
    simultaneous substitution. *)
Theorem replace_dummies_order_is_immaterial (tpl : list piece)
    (t10 t11 : pyval) :
  plain tpl = true ->
  inert Input_T11 (py_str t10) = true ->
  inert Input_T10 (py_str t11) = true ->
  replace_dummies (render tpl) t10 t11
  = instantiate (py_str t10) (py_str t11) tpl
  /\ reduce_replace (rev (replacements_dummies t10 t11)) (render tpl)
     = instantiate (py_str t10) (py_str t11) tpl.
Proof.
  intros Hplain Hx Hy.
  destruct (plain_literals_inert tpl Hplain) as [H10 H11].
  destruct tokens_inert as [Hba Hab].
  unfold replace_dummies, replacements_dummies, reduce_replace, render.
  cbn [rev app fold_left fst snd].
  split.
  - rewrite (replace_first_slot _ _ _ _ Input_T10_nonempty H10 Hba).
    apply (replace_second_slot _ _ _ _ Input_T11_nonempty H11 Hx).
  - rewrite (replace_second_slot _ _ _ _ Input_T11_nonempty H11 Hab).
    apply (replace_first_slot _ _ _ _ Input_T10_nonempty H10 Hy).
Qed.

(** The theorem at a map name and a digital number. *)
Lemma replace_dummies_order_is_immaterial_witness :
  plain [Lit "("; T10; Lit " - "; T11; Lit ")^2"] = true
  /\ inert Input_T11 (py_str (PyStr "B10")) = true
  /\ inert Input_T10 (py_str (PyInt 4096)) = true
  /\ replace_dummies "(Input_T10 - Input_T11)^2" (PyStr "B10") (PyInt 4096)
     = "(B10 - 4096)^2"
  /\ reduce_replace (rev (replacements_dummies (PyStr "B10") (PyInt 4096)))
                    "(Input_T10 - Input_T11)^2"
     = "(B10 - 4096)^2".
Proof.
  split; [vm_compute; reflexivity|]. split; [vm_compute; reflexivity|].
  split; [vm_compute; reflexivity|].
  apply (replace_dummies_order_is_immaterial
           [Lit "("; T10; Lit " - "; T11; Lit ")^2"] (PyStr "B10") (PyInt 4096));
    vm_compute; reflexivity.
Defined.

(** C3, counterexample. With [Input_T11] as the text bound to [Input_T10],
    the second pass substitutes the token that the first pass has just
    written: the result is [x], where a single pass gives [Input_T11], and
    so does the other order of the two passes. *)
Lemma replacement_text_is_scanned_again :
  render [T10] = "Input_T10"
  /\ replace_dummies "Input_T10" (PyStr "Input_T11") (PyStr "x") = "x"
  /\ instantiate (py_str (PyStr "Input_T11")) (py_str (PyStr "x")) [T10]
     = "Input_T11"
  /\ reduce_replace
       (rev (replacements_dummies (PyStr "Input_T11") (PyStr "x")))
       "Input_T10"
     = "Input_T11"
  /\ "x" <> "Input_T11".
Proof.
  repeat split; try (vm_compute; reflexivity). discriminate.
Qed.

(** * The split-window model *)

(** C8. For the emissivities 0.971 and 0.968 and the coefficients
    [b0 = 0.5], [b1 = 1], all others zero, the model derives the average
    emissivity 0.9695 and the difference 0.003, and [compute] on 300 and
    299 returns 300. *)
Theorem compute_worked_example :
  (SplitWindowModel.average_emissivity
     (SplitWindowModel.construct cropland degenerate_coefficients)
   == 0.9695)%Q
  /\ (SplitWindowModel.delta_emissivity
        (SplitWindowModel.construct cropland degenerate_coefficients)
      == 0.003)%Q
  /\ exists lst,
       SplitWindowModel.compute
         (SplitWindowModel.construct cropland degenerate_coefficients) 300 299
       = SplitWindowModel.LST lst
       /\ (lst == 300)%Q.
Proof.
  split; [vm_compute; reflexivity|]. split; [vm_compute; reflexivity|].
  eexists. split; [vm_compute; reflexivity|]. vm_compute; reflexivity.
Qed.

Lemma not_positive_zero (q : Q) :
  (q == 0)%Q -> SplitWindowModel.positive q = false.
Proof.
  intros Hq. unfold SplitWindowModel.positive.
  assert (H : Qle_bool q 0 = true)
    by (apply Qle_bool_iff; rewrite Hq; apply Qle_refl).
  rewrite H. reflexivity.
Qed.

(** C9. Construction of a model never fails, whatever the emissivities:
    it only derives the average and the difference. When one emissivity
    is zero and the derived average is zero, [compute] is a [DomainError]
    and no quotient by the average is formed. *)
Theorem compute_zero_emissivity
    (e : SplitWindowModel.Emissivity)
    (c : SplitWindowModel.SplitWindowCoefficients) (t_i t_j : Q) :
  (SplitWindowModel.eps_i e == 0)%Q \/ (SplitWindowModel.eps_j e == 0)%Q ->
  (SplitWindowModel.average_emissivity (SplitWindowModel.construct e c) == 0)%Q ->
  SplitWindowModel.emissivity (SplitWindowModel.construct e c) = e
  /\ SplitWindowModel.average_emissivity (SplitWindowModel.construct e c)
     = (0.5 * (SplitWindowModel.eps_i e + SplitWindowModel.eps_j e))%Q
  /\ SplitWindowModel.compute (SplitWindowModel.construct e c) t_i t_j
     = SplitWindowModel.DomainError.
Proof.
  intros Hzero Havg. split; [reflexivity|]. split; [reflexivity|].
  unfold SplitWindowModel.compute.
  cbn [SplitWindowModel.emissivity SplitWindowModel.construct].
  destruct Hzero as [Hi|Hj].
  - rewrite (not_positive_zero _ Hi). reflexivity.
  - rewrite (not_positive_zero _ Hj), andb_false_r. reflexivity.
Qed.

(** The theorem at the emissivity pair (0, 0). *)
Lemma compute_zero_emissivity_witness :
  SplitWindowModel.compute
    (SplitWindowModel.construct
       {| SplitWindowModel.eps_i := 0; SplitWindowModel.eps_j := 0 |}
       degenerate_coefficients) 300 299
  = SplitWindowModel.DomainError.
Proof.
  apply (compute_zero_emissivity
           {| SplitWindowModel.eps_i := 0; SplitWindowModel.eps_j := 0 |}
           degenerate_coefficients 300 299).
  - left. vm_compute; reflexivity.
  - vm_compute; reflexivity.
Defined.

(** * Further facts *)

(** A canonical key holds none of the characters that
    [replace_dot_comma_space] rewrites: each is removed by its own
    replacement and brought back by none of the later ones. *)
Lemma canonical_key_is_clean (s : string) :
  forallb (fun c => absent c (replace_dot_comma_space s))
          [ "."%char; ","%char; " "%char; "("%char; ")"%char; "/"%char ]
  = true.
Proof.
  unfold replace_dot_comma_space, replacements_dot_comma_space, reduce_replace.
  cbn [fold_left fst snd forallb].
  repeat (apply andb_true_intro; split); try reflexivity;
    repeat first
      [ apply replace_char_absent; reflexivity
      | apply replace_keeps_absent; [|reflexivity] ].
Qed.

(** The three-element [transform], had [csv_to_dictionary] mapped it over
    the rows, accepts the embedded table that [transform_cwv] rejects. *)
Lemma transform_accepts_embedded_table :
  returns (map_rows (transform (header_fields csv)) (data_rows csv) ∅) = true
  /\ returns (csv_to_dictionary csv) = false.
Proof. split; vm_compute; reflexivity. Qed.

(** * Canonical keys *)

(** A pass for a token whose first character the text does not hold
    changes nothing. *)
Lemma replace_first_char_absent (a : ascii) (old new s : string) :
  absent a s = true -> replace s (String a old) new = s.
Proof.
  unfold replace, absent. induction s as [|b s IH]; intros Hs; [reflexivity|].
  cbn [all_chars] in Hs. apply andb_prop in Hs as [Hb Hs].
  cbn [replace_scan starts_with].
  destruct (Ascii.eqb_spec a b) as [->|_].
  - rewrite Ascii.eqb_refl in Hb. discriminate.
  - cbn [andb]. rewrite (IH Hs). reflexivity.
Qed.

Lemma clean_text_is_canonical (s : string) :
  forallb (fun c => absent c s)
          [ "."%char; ","%char; " "%char; "("%char; ")"%char; "/"%char ]
  = true ->
  replace_dot_comma_space s = s.
Proof.
  cbn [forallb]. intros H.
  repeat (apply andb_prop in H as [?H H]).
  unfold replace_dot_comma_space, replacements_dot_comma_space, reduce_replace.
  cbn [fold_left fst snd].
  rewrite (replace_first_char_absent "." "" "" s) by assumption.
  rewrite (replace_first_char_absent "," " " "_" s) by assumption.
  rewrite (replace_first_char_absent "," "" "_" s) by assumption.
  rewrite (replace_first_char_absent " " "" "_" s) by assumption.
  rewrite (replace_first_char_absent "(" "" "" s) by assumption.
  rewrite (replace_first_char_absent ")" "" "" s) by assumption.
  apply replace_first_char_absent. assumption.
Qed.

(** X1. The canonical form of any text holds none of the six characters
    that [replace_dot_comma_space] rewrites, and canonicalising it once
    more changes nothing. *)
Theorem canonical_key_is_stable (s : string) :
  forallb (fun c => absent c (replace_dot_comma_space s))
          [ "."%char; ","%char; " "%char; "("%char; ")"%char; "/"%char ]
  = true
  /\ replace_dot_comma_space (replace_dot_comma_space s)
     = replace_dot_comma_space s.
Proof.
  split; [apply canonical_key_is_clean|].
  apply clean_text_is_canonical, canonical_key_is_clean.
Qed.


(** * [replace_dummies]: expressions without tokens, integer values *)

Lemma replace_not_occurring (old new s : string) :
  occurs old s = false -> replace s old new = s.
Proof.
  unfold replace. destruct old as [|a old].
  - destruct s; discriminate.
  - induction s as [|c s IH]; intros H; [reflexivity|].
    cbn [occurs] in H. apply orb_false_elim in H as [Hsw Hocc].
    cbn [replace_scan]. rewrite Hsw, (IH Hocc). reflexivity.
Qed.

(** X2. An expression in which neither placeholder token occurs comes
    back unaltered, whatever the two values are. *)
Theorem replace_dummies_without_tokens (s : string) (t10 t11 : pyval) :
  occurs Input_T10 s = false ->
  occurs Input_T11 s = false ->
  replace_dummies s t10 t11 = s.
Proof.
  intros H10 H11.
  unfold replace_dummies, replacements_dummies, reduce_replace.
  cbn [fold_left fst snd].
  rewrite (replace_not_occurring _ _ _ H10).
  apply replace_not_occurring, H11.
Qed.

Lemma replace_dummies_without_tokens_witness :
  occurs Input_T10 "0.5 + Input_T12 * 2" = false
  /\ occurs Input_T11 "0.5 + Input_T12 * 2" = false
  /\ replace_dummies "0.5 + Input_T12 * 2" (PyInt 7) (PyStr "B11")
     = "0.5 + Input_T12 * 2".
Proof.
  split; [vm_compute; reflexivity|]. split; [vm_compute; reflexivity|].
  apply (replace_dummies_without_tokens "0.5 + Input_T12 * 2"
           (PyInt 7) (PyStr "B11")); vm_compute; reflexivity.
Defined.

(** The decimal text of an integer has no letter. *)
Lemma string_of_uint_no_I (d : Decimal.uint) :
  absent "I" (NilEmpty.string_of_uint d) = true.
Proof. induction d; simpl; try reflexivity; exact IHd. Qed.

Lemma py_str_int_no_I (z : Z) : absent "I" (py_str (PyInt z)) = true.
Proof.
  unfold py_str, NilZero.string_of_int, NilZero.string_of_uint.
  destruct (Z.to_int z) as [d|d]; destruct d;
    try reflexivity; simpl; apply string_of_uint_no_I.
Qed.

(** Text without the first character of [old] is inert for [old]. *)
Lemma absent_first_char_inert (a : ascii) (old s : string) :
  absent a s = true -> inert (String a old) s = true.
Proof.
  unfold absent. induction s as [|b s IH]; intros Hs; [reflexivity|].
  cbn [all_chars] in Hs. apply andb_prop in Hs as [Hb Hs].
  cbn [inert may_begin].
  destruct (Ascii.eqb_spec a b) as [->|_].
  - rewrite Ascii.eqb_refl in Hb. discriminate.
  - cbn [andb negb]. apply IH, Hs.
Qed.

(** X3. With integers for both values, which is how [main] calls it, the
    result for an expression made of tokens and of literal text in which
    no token begins is the simultaneous substitution of the two decimal
    texts: digits never complete a token. *)
Theorem replace_dummies_with_integers (tpl : list piece) (t10 t11 : Z) :
  plain tpl = true ->
  replace_dummies (render tpl) (PyInt t10) (PyInt t11)
  = instantiate (py_str (PyInt t10)) (py_str (PyInt t11)) tpl.
Proof.
  intros Hplain.
  destruct (plain_literals_inert tpl Hplain) as [H10 H11].
  destruct tokens_inert as [Hba _].
  assert (Hx : inert Input_T11 (py_str (PyInt t10)) = true)
    by (apply absent_first_char_inert, py_str_int_no_I).
  unfold replace_dummies, replacements_dummies, reduce_replace, render.
  cbn [fold_left fst snd].
  rewrite (replace_first_slot _ _ _ _ Input_T10_nonempty H10 Hba).
  apply (replace_second_slot _ _ _ _ Input_T11_nonempty H11 Hx).
Qed.

Lemma replace_dummies_with_integers_witness :
  plain [Lit "("; T10; Lit " + "; T11; Lit ") / 2"] = true
  /\ replace_dummies "(Input_T10 + Input_T11) / 2" (PyInt 4096) (PyInt 1)
     = "(4096 + 1) / 2".
Proof.
  split; [vm_compute; reflexivity|].
  apply (replace_dummies_with_integers
           [Lit "("; T10; Lit " + "; T11; Lit ") / 2"] 4096 1).
  vm_compute; reflexivity.
Defined.

(** * [csv_to_dictionary]: edges *)

Lemma split_absent (sep : ascii) (s : string) :
  absent sep s = true -> split sep s = [s].
Proof.
  unfold absent. induction s as [|c s IH]; intros Hs; [reflexivity|].
  cbn [all_chars] in Hs. apply andb_prop in Hs as [Hc Hs].
  cbn [split]. apply negb_true_iff in Hc. rewrite Hc, (IH Hs). reflexivity.
Qed.

(** X4. A text of one line, the empty text included, yields the empty
    dictionary: with no data row nothing of the header is ever looked
    at. *)
Theorem header_only_gives_empty_dictionary (header : string) :
  absent newline header = true ->
  csv_to_dictionary header = Ok ∅.
Proof.
  intros H. unfold csv_to_dictionary.
  rewrite (split_absent _ _ H). reflexivity.
Qed.

Lemma header_only_gives_empty_dictionary_witness :
  absent newline "not|a|usable|header" = true
  /\ csv_to_dictionary "not|a|usable|header" = Ok ∅.
Proof.
  split; [vm_compute; reflexivity|].
  apply (header_only_gives_empty_dictionary "not|a|usable|header").
  vm_compute; reflexivity.
Defined.

Lemma split_snoc_sep (sep : ascii) (s : string) :
  split sep (s ++ String sep EmptyString)
  = (split sep s ++ [EmptyString])%list.
Proof.
  induction s as [|c s IH].
  - change (split sep (String sep EmptyString) = [EmptyString; EmptyString]).
    cbn [split]. rewrite Ascii.eqb_refl. reflexivity.
  - change (String c s ++ String sep EmptyString)
      with (String c (s ++ String sep EmptyString)).
    cbn [split]. rewrite IH. destruct (Ascii.eqb c sep); [reflexivity|].
    destruct (split_nonempty sep s) as (h & t & ->). reflexivity.
Qed.

Lemma row_ok_empty_row (fields : list string) :
  row_ok fields EmptyString = false.
Proof. unfold row_ok. cbn [split length]. apply andb_false_r. Qed.

(** X5. A table text that ends in a line break is never accepted: the
    break leaves an empty last row, and the empty row fails in
    [transform_cwv]. *)
Theorem trailing_newline_aborts (text : string) :
  exists e,
    csv_to_dictionary (text ++ String newline EmptyString) = Raise e
    /\ row_error (header_fields (text ++ String newline EmptyString)) e.
Proof.
  rewrite csv_to_dictionary_rows. apply map_rows_raise.
  unfold data_rows. rewrite split_snoc_sep.
  destruct (split_nonempty newline text) as (h & t & ->).
  cbn [app tl]. rewrite forallb_app. cbn [forallb].
  rewrite row_ok_empty_row. cbn [andb]. apply andb_false_r.
Qed.

(** X6. With fewer than ten field names in the header and at least one
    data row, whatever the rows hold, the call ends at the first row with
    the [IndexError] of [fields[n]], [n] being the number of field
    names. No table of the three-column emissivity layout is accepted. *)
Theorem short_header_aborts (table : string) :
  (length (header_fields table) < 10)%nat ->
  data_rows table <> [] ->
  csv_to_dictionary table
  = Raise (IndexError (InFields (length (header_fields table)))).
Proof.
  intros Hlen Hrows. rewrite csv_to_dictionary_rows.
  destruct (data_rows table) as [|row rows]; [contradiction|].
  cbn [map_rows]. rewrite transform_cwv_cases.
  apply Nat.ltb_lt in Hlen. rewrite Hlen. reflexivity.
Qed.

Lemma short_header_aborts_witness :
  (length (header_fields testdata_like) < 10)%nat
  /\ data_rows testdata_like <> []
  /\ csv_to_dictionary testdata_like = Raise (IndexError (InFields 2)).
Proof.
  split; [vm_compute; lia|]. split; [vm_compute; discriminate|].
  apply (short_header_aborts testdata_like);
    [vm_compute; lia|vm_compute; discriminate].
Defined.

(** * The returned dictionary *)

Lemma csv_to_dictionary_Ok (table : string) (d : gmap string cwv_class) :
  csv_to_dictionary table = Ok d ->
  table_ok table = true
  /\ d = feed (header_fields table) (data_rows table) ∅.
Proof.
  rewrite csv_to_dictionary_rows. unfold table_ok.
  destruct (forallb (row_ok (header_fields table)) (data_rows table)) eqn:H.
  - rewrite (map_rows_ok _ _ _ H). intros [= <-]. split; reflexivity.
  - destruct (map_rows_raise _ _ ∅ H) as (e & -> & _). discriminate.
Qed.

Lemma first_row_Some (key : string) (rows : list string) (row : string) :
  first_row key rows = Some row -> In row rows /\ row_key row = key.
Proof.
  unfold first_row. intros H. apply find_some in H as [Hin Heq].
  split; [exact Hin|]. apply String.eqb_eq, Heq.
Qed.

Lemma first_row_None (key : string) (rows : list string) :
  first_row key rows = None -> ~ In key (map row_key rows).
Proof.
  unfold first_row. intros H Hin.
  apply in_map_iff in Hin as (row & Hkey & Hin).
  pose proof (find_none _ _ H row Hin) as Hne. cbv beta in Hne.
  rewrite Hkey, String.eqb_refl in Hne. discriminate.
Qed.

(** X7. The keys of a returned dictionary are exactly the canonical keys
    of the data rows: a key that no row has is missing, and every row's
    canonical key is present. *)
Theorem dictionary_keys_are_row_keys (table : string)
    (d : gmap string cwv_class) :
  csv_to_dictionary table = Ok d ->
  forall key,
    (is_Some (d !! key) <-> In key (map row_key (data_rows table)))
    /\ (d !! key = None <-> ~ In key (map row_key (data_rows table))).
Proof.
  intros Hd key. apply csv_to_dictionary_Ok in Hd as [_ ->].
  rewrite feed_lookup, lookup_empty.
  destruct (first_row key (data_rows table)) as [row|] eqn:Hrow; cbn [fmap option_fmap option_map].
  - apply first_row_Some in Hrow as [Hin Hkey].
    assert (Hk : In key (map row_key (data_rows table)))
      by (rewrite <- Hkey; apply in_map, Hin).
    split; split; try discriminate; eauto.
    intros Hn. contradiction.
  - apply first_row_None in Hrow.
    split; split; try tauto.
    intros [c Hc]. discriminate.
Qed.

Lemma dictionary_keys_are_row_keys_witness :
  exists d,
    csv_to_dictionary duplicate_table = Ok d
    /\ forall key,
         (is_Some (d !! key)
          <-> In key (map row_key (data_rows duplicate_table)))
         /\ (d !! key = None
             <-> ~ In key (map row_key (data_rows duplicate_table))).
Proof.
  exists (feed (header_fields duplicate_table) (data_rows duplicate_table) ∅).
  assert (H : csv_to_dictionary duplicate_table
              = Ok (feed (header_fields duplicate_table)
                         (data_rows duplicate_table) ∅)).
  { rewrite csv_to_dictionary_rows. apply map_rows_ok. vm_compute; reflexivity. }
  split; [exact H|].
  exact (dictionary_keys_are_row_keys duplicate_table _ H).
Defined.

Lemma kept_or_False_is_number (s : string) :
  kept_or_False (is_number s) = true.
Proof.
  rewrite is_number_text. destruct (numeric_text s) eqn:H; [exact H|reflexivity].
Qed.

Lemma length_field_names (fields : list string) :
  (10 <= length fields)%nat -> length (field_names fields) = 10%nat.
Proof.
  intros H. unfold field_names. rewrite length_map, length_take. lia.
Qed.

(** X8. Every class stored in a returned dictionary carries its key as
    type name and the same ten field names, the first ten canonical
    header fields; each of its ten attributes is [False] or the text of a
    number, never a converted number; and it is the class of one of the
    data rows. *)
Theorem stored_classes_are_uniform (table key : string)
    (d : gmap string cwv_class) (c : cwv_class) :
  csv_to_dictionary table = Ok d ->
  d !! key = Some c ->
  typename c = key
  /\ _fields c = field_names (header_fields table)
  /\ length (_fields c) = 10%nat
  /\ forallb kept_or_False (attributes c) = true
  /\ exists row, In row (data_rows table)
                 /\ c = row_class (header_fields table) row.
Proof.
  intros Hd Hc. apply csv_to_dictionary_Ok in Hd as [Hok ->].
  rewrite feed_lookup, lookup_empty in Hc.
  destruct (first_row key (data_rows table)) as [row|] eqn:Hrow;
    [|discriminate].
  injection Hc as <-. apply first_row_Some in Hrow as [Hin Hkey].
  unfold table_ok in Hok. rewrite forallb_forall in Hok.
  specialize (Hok row Hin). unfold row_ok in Hok.
  apply andb_prop in Hok as [Hok _]. apply andb_prop in Hok as [Hlen _].
  apply Nat.leb_le in Hlen.
  split; [exact Hkey|]. split; [reflexivity|].
  split; [apply length_field_names, Hlen|].
  split; [|exists row; split; [exact Hin|reflexivity]].
  unfold attributes, row_class. cbn [forallb subrange b0 b1 b2 b3 b4 b5 b6 b7 rmse].
  rewrite !kept_or_False_is_number. reflexivity.
Qed.

Lemma stored_classes_are_uniform_witness :
  exists d c,
    csv_to_dictionary cwv_table = Ok d
    /\ d !! "S2" = Some c
    /\ typename c = "S2"
    /\ length (_fields c) = 10%nat
    /\ forallb kept_or_False (attributes c) = true.
Proof.
  exists (feed (header_fields cwv_table) (data_rows cwv_table) ∅).
  exists (row_class (header_fields cwv_table)
            "S2|-2.78009|1.01408|0.15833|-0.34991|4.04487|3.55414|-8.88394|0.09152|0.34").
  assert (H : csv_to_dictionary cwv_table
              = Ok (feed (header_fields cwv_table) (data_rows cwv_table) ∅)).
  { rewrite csv_to_dictionary_rows. apply map_rows_ok. vm_compute; reflexivity. }
  assert (Hc : feed (header_fields cwv_table) (data_rows cwv_table) ∅ !! "S2"
               = Some (row_class (header_fields cwv_table)
                         "S2|-2.78009|1.01408|0.15833|-0.34991|4.04487|3.55414|-8.88394|0.09152|0.34")).
  { rewrite feed_lookup, lookup_empty. vm_compute; reflexivity. }
  split; [exact H|]. split; [exact Hc|].
  destruct (stored_classes_are_uniform cwv_table "S2" _ _ H Hc)
    as (H1 & _ & H3 & H4 & _).
  split; [exact H1|]. split; [exact H3|exact H4].
Defined.

Lemma check_name_Ok (name : string) :
  check_name name = Ok tt -> identifier name = true.
Proof.
  unfold check_name, identifier.
  destruct (all_chars is_name_char name); cbn [negb andb]; [|discriminate].
  destruct (iskeyword name); cbn [negb andb]; [discriminate|].
  destruct name as [|c name]; [discriminate|].
  destruct (is_digit c); [discriminate|reflexivity].
Qed.

Lemma check_names_Ok (names : list string) :
  check_names names = Ok tt -> forallb identifier names = true.
Proof.
  induction names as [|name names IH]; cbn [check_names forallb];
    [reflexivity|].
  destruct (check_name name) as [[]|e] eqn:Hn; cbn [bind]; [|discriminate].
  intros H. rewrite (check_name_Ok _ Hn), (IH H). reflexivity.
Qed.

Lemma namedtuple_returns_identifiers (name : string) (fs : list string) :
  returns (namedtuple name fs) = true ->
  identifier name = true /\ forallb identifier fs = true.
Proof.
  unfold namedtuple.
  destruct (check_names (name :: fs)) as [[]|e] eqn:Hn; cbn [bind];
    [|discriminate].
  intros _. apply check_names_Ok in Hn. cbn [forallb] in Hn.
  apply andb_prop in Hn. exact Hn.
Qed.

(** X9. Every key of a returned dictionary, and every field name of the
    class stored under it, is an identifier: letters, digits and
    underscores only, not empty, not beginning with a digit, and no
    Python keyword. *)
Theorem dictionary_keys_are_identifiers (table key : string)
    (d : gmap string cwv_class) (c : cwv_class) :
  csv_to_dictionary table = Ok d ->
  d !! key = Some c ->
  identifier key = true /\ forallb identifier (_fields c) = true.
Proof.
  intros Hd Hc. apply csv_to_dictionary_Ok in Hd as [Hok ->].
  rewrite feed_lookup, lookup_empty in Hc.
  destruct (first_row key (data_rows table)) as [row|] eqn:Hrow;
    [|discriminate].
  injection Hc as <-. apply first_row_Some in Hrow as [Hin <-].
  unfold table_ok in Hok. rewrite forallb_forall in Hok.
  specialize (Hok row Hin). unfold row_ok in Hok.
  apply andb_prop in Hok as [Hok _]. apply andb_prop in Hok as [_ Hnt].
  apply namedtuple_returns_identifiers in Hnt. exact Hnt.
Qed.

Lemma dictionary_keys_are_identifiers_witness :
  exists d c,
    csv_to_dictionary duplicate_table = Ok d
    /\ d !! "Barren_Land" = Some c
    /\ identifier "Barren_Land" = true
    /\ forallb identifier (_fields c) = true.
Proof.
  exists (feed (header_fields duplicate_table) (data_rows duplicate_table) ∅).
  exists (row_class (header_fields duplicate_table)
                    "Barren Land|1|2|3|4|5|6|7|8|9").
  assert (H : csv_to_dictionary duplicate_table
              = Ok (feed (header_fields duplicate_table)
                         (data_rows duplicate_table) ∅)).
  { rewrite csv_to_dictionary_rows. apply map_rows_ok. vm_compute; reflexivity. }
  assert (Hc : feed (header_fields duplicate_table)
                    (data_rows duplicate_table) ∅ !! "Barren_Land"
               = Some (row_class (header_fields duplicate_table)
                                 "Barren Land|1|2|3|4|5|6|7|8|9")).
  { rewrite feed_lookup, lookup_empty. vm_compute; reflexivity. }
  split; [exact H|]. split; [exact Hc|].
  exact (dictionary_keys_are_identifiers duplicate_table "Barren_Land" _ _ H Hc).
Defined.

(** X10. When the header names ten fields, the rows before the first row
    of fewer than ten elements all pass, and [namedtuple] accepts the
    canonical key of that row with the field names, the call ends with
    the [IndexError] of [elements[k]], [k] being the number of elements
    of that row; the rows after it are never read. *)
Theorem first_short_row_decides (table : string) (pre post : list string)
    (row : string) :
  (10 <= length (header_fields table))%nat ->
  data_rows table = (pre ++ row :: post)%list ->
  forallb (row_ok (header_fields table)) pre = true ->
  returns (namedtuple (row_key row) (field_names (header_fields table))) = true ->
  (length (split "|" row) < 10)%nat ->
  csv_to_dictionary table
  = Raise (IndexError (InElements (length (split "|" row)))).
Proof.
  intros Hf Hrows Hpre Hnt Hshort.
  rewrite csv_to_dictionary_rows, Hrows. clear Hrows.
  generalize (∅ : gmap string cwv_class).
  induction pre as [|r pre IH]; intros d.
  - cbn [app map_rows]. rewrite transform_cwv_cases.
    destruct (Nat.ltb_spec (length (header_fields table)) 10); [lia|].
    destruct (namedtuple (row_key row) (field_names (header_fields table)));
      [|discriminate].
    apply Nat.ltb_lt in Hshort. rewrite Hshort. reflexivity.
  - cbn [forallb] in Hpre. apply andb_prop in Hpre as [Hr Hpre].
    cbn [app map_rows]. rewrite (transform_cwv_ok _ _ _ Hr). cbn [bind].
    apply IH, Hpre.
Qed.

Lemma first_short_row_decides_witness :
  csv_to_dictionary short_second_row_table = Raise (IndexError (InElements 3)).
Proof.
  apply (first_short_row_decides short_second_row_table
           ["S1|0.5|1|0|0|0|0|0|0|0.1"] ["not even read"] "S2|1|2").
  - vm_compute; lia.
  - vm_compute; reflexivity.
  - vm_compute; reflexivity.
  - vm_compute; reflexivity.
  - vm_compute; lia.
Defined.

(** * [transform] *)

(** The get-or-set idiom of both transforms, row after row: a key that is
    present keeps its value, and a new key gets the value made from the
    first row that has it. *)
Lemma get_or_set_lookup {V : Type} (key_of : string -> string)
    (make : string -> V) (rows : list string) (d : gmap string V)
    (key : string) :
  fold_left
    (fun d row => <[key_of row := default (make row) (d !! key_of row)]> d)
    rows d !! key
  = match d !! key with
    | Some v => Some v
    | None => make <$> find (fun row => String.eqb (key_of row) key) rows
    end.
Proof.
  revert d. induction rows as [|row rows IH]; intros d.
  - simpl. destruct (d !! key); reflexivity.
  - cbn [fold_left find]. rewrite IH.
    destruct (String.eqb_spec (key_of row) key) as [->|Hne].
    + rewrite lookup_insert_eq. destruct (d !! key); reflexivity.
    + rewrite lookup_insert_ne by exact Hne. reflexivity.
Qed.

(** [transform] by cases, in the order in which its checks fail. *)
Lemma transform_cases (fields : list string) (d : gmap string ect_class)
    (row : string) :
  transform fields d row =
    if (length fields <? 2)%nat
    then Raise (IndexError (InFields (length fields)))
    else match namedtuple (row_key row) (take 2 fields) with
         | Raise e => Raise e
         | Ok _ =>
             if (length (split "|" row) <? 3)%nat
             then Raise (IndexError (InElements (length (split "|" row))))
             else Ok (<[row_key row :=
                          default (ect_row_class fields row)
                                  (d !! row_key row)]> d)
         end.
Proof.
  unfold transform, ect_row_class, row_key, element.
  destruct (split_nonempty "|" row) as (e0 & es & ->).
  cbn [getitem lookup list_lookup bind nth].
  do 2 (destruct fields as [|? fields]; [reflexivity|]).
  cbv [firstn].
  cbn [getitem lookup list_lookup bind nth length Nat.ltb Nat.leb].
  match goal with
  | |- context [namedtuple ?n ?fs] => destruct (namedtuple n fs) as [p|e] eqn:Hnt
  end; cbn [bind]; [|reflexivity].
  apply namedtuple_Ok in Hnt; subst p; cbn [fst snd].
  do 2 (destruct es as [|? es]; [reflexivity|]).
  reflexivity.
Qed.

Lemma transform_ok (fields : list string) (d : gmap string ect_class)
    (row : string) :
  ect_row_ok fields row = true ->
  transform fields d row
  = Ok (<[row_key row :=
            default (ect_row_class fields row) (d !! row_key row)]> d).
Proof.
  unfold ect_row_ok. intros Hrow. rewrite transform_cases.
  apply andb_prop in Hrow as [Hrow He]. apply andb_prop in Hrow as [Hf Hnt].
  apply Nat.leb_le in Hf, He.
  destruct (Nat.ltb_spec (length fields) 2); [lia|].
  destruct (namedtuple (row_key row) (take 2 fields)); [|discriminate].
  destruct (Nat.ltb_spec (length (split "|" row)) 3); [lia|].
  reflexivity.
Qed.

Lemma transform_raise (fields : list string) (d : gmap string ect_class)
    (row : string) :
  ect_row_ok fields row = false ->
  exists e, transform fields d row = Raise e.
Proof.
  unfold ect_row_ok. intros Hrow. rewrite transform_cases.
  destruct (Nat.ltb_spec (length fields) 2) as [|Hf]; [eauto|].
  destruct (namedtuple (row_key row) (take 2 fields)); [|eauto].
  destruct (Nat.ltb_spec (length (split "|" row)) 3) as [|He]; [eauto|].
  apply Nat.leb_le in Hf, He. rewrite Hf, He in Hrow. discriminate.
Qed.

Lemma transform_rows_ok (fields rows : list string) (d : gmap string ect_class) :
  forallb (ect_row_ok fields) rows = true ->
  map_rows (transform fields) rows d
  = Ok (fold_left
          (fun d row =>
             <[row_key row :=
                 default (ect_row_class fields row) (d !! row_key row)]> d)
          rows d).
Proof.
  revert d. induction rows as [|row rows IH]; intros d H; [reflexivity|].
  cbn [forallb] in H. apply andb_prop in H as [Hrow Hrows].
  cbn [map_rows fold_left]. rewrite (transform_ok _ _ _ Hrow).
  cbn [bind]. apply IH, Hrows.
Qed.

Lemma transform_rows_raise (fields rows : list string)
    (d : gmap string ect_class) :
  forallb (ect_row_ok fields) rows = false ->
  exists e, map_rows (transform fields) rows d = Raise e.
Proof.
  revert d. induction rows as [|row rows IH]; intros d H; [discriminate|].
  cbn [forallb] in H. cbn [map_rows].
  destruct (ect_row_ok fields row) eqn:Hrow.
  - rewrite (transform_ok _ _ _ Hrow). cbn [bind]. apply IH, H.
  - destruct (transform_raise fields d row Hrow) as (e & ->).
    exists e. reflexivity.
Qed.

(** X11. Mapping [transform] over rows that each pass its checks (two
    field names in the header, three elements in the row, and a canonical
    key that [namedtuple] accepts together with the two field names)
    builds a dictionary in which every key leads to the class of the
    first row with that canonical key, its [TIRS10] and [TIRS11] being
    what [is_number] makes of the second and third element; a key of no
    row is missing. *)
Theorem transform_first_row_wins (fields rows : list string) :
  forallb (ect_row_ok fields) rows = true ->
  exists d,
    map_rows (transform fields) rows ∅ = Ok d
    /\ (forall key,
          d !! key = ect_row_class fields <$> first_row key rows)
    /\ (forall key row,
          first_row key rows = Some row ->
          exists c,
            d !! key = Some c
            /\ ect_typename c = key
            /\ TIRS10 c = (if numeric_text (element row 1)
                           then PyStr (element row 1) else PyBool false)
            /\ TIRS11 c = (if numeric_text (element row 2)
                           then PyStr (element row 2) else PyBool false)).
Proof.
  intros H. eexists. split; [apply transform_rows_ok, H|]. split.
  - intros key. rewrite get_or_set_lookup, lookup_empty. reflexivity.
  - intros key row Hrow. exists (ect_row_class fields row).
    split; [|split; [|split]].
    + rewrite get_or_set_lookup, lookup_empty.
      change (find (fun row0 => String.eqb (row_key row0) key) rows)
        with (first_row key rows).
      rewrite Hrow. reflexivity.
    + apply first_row_Some in Hrow as [_ Hkey]. exact Hkey.
    + apply is_number_text.
    + apply is_number_text.
Qed.

Lemma transform_first_row_wins_witness :
  forallb (ect_row_ok (header_fields csv)) (data_rows csv) = true
  /\ exists d,
       map_rows (transform (header_fields csv)) (data_rows csv) ∅ = Ok d
       /\ (forall key,
             d !! key
             = ect_row_class (header_fields csv)
                 <$> first_row key (data_rows csv))
       /\ (forall key row,
             first_row key (data_rows csv) = Some row ->
             exists c,
               d !! key = Some c
               /\ ect_typename c = key
               /\ TIRS10 c = (if numeric_text (element row 1)
                              then PyStr (element row 1) else PyBool false)
               /\ TIRS11 c = (if numeric_text (element row 2)
                              then PyStr (element row 2) else PyBool false)).
Proof.
  split; [vm_compute; reflexivity|].
  apply (transform_first_row_wins (header_fields csv) (data_rows csv)).
  vm_compute; reflexivity.
Defined.

(** X12. Mapping [transform] over the rows, from whatever dictionary it
    starts, returns a dictionary exactly when every row passes the checks
    that [transform] makes for it: two field names in the header, a
    canonical key that [namedtuple] accepts with them, three elements in
    the row. With no row at all it returns, whatever the header is. *)
Theorem transform_returns_iff_rows_ok (fields rows : list string)
    (d : gmap string ect_class) :
  returns (map_rows (transform fields) rows d)
  = forallb (ect_row_ok fields) rows.
Proof.
  destruct (forallb (ect_row_ok fields) rows) eqn:H.
  - rewrite (transform_rows_ok _ _ _ H). reflexivity.
  - destruct (transform_rows_raise _ _ d H) as (e & ->). reflexivity.
Qed.

(** * [csv_reader] *)

Lemma append_assoc (s t u : string) : (s ++ t) ++ u = s ++ (t ++ u).
Proof.
  induction s as [|c s IH]; [reflexivity|].
  change (String c ((s ++ t) ++ u) = String c (s ++ (t ++ u))).
  f_equal. exact IH.
Qed.

Lemma append_empty_r (s : string) : s ++ EmptyString = s.
Proof.
  induction s as [|c s IH]; [reflexivity|].
  change (String c (s ++ EmptyString) = String c s).
  f_equal. exact IH.
Qed.

Lemma gather_app (rows : list (list string)) (init : string) :
  gather rows init = init ++ gather rows EmptyString.
Proof.
  unfold gather. revert init.
  induction rows as [|row rows IH]; intros init; cbn [fold_left].
  - symmetry. apply append_empty_r.
  - rewrite IH. rewrite (IH (EmptyString ++ _)). cbn [append].
    apply append_assoc.
Qed.

Lemma gather_lines (row : list string) (rows : list (list string)) :
  gather (row :: rows) EmptyString
  = String newline
      (join (String newline EmptyString) (map (join "|") (row :: rows))).
Proof.
  revert row. induction rows as [|row' rows IH]; intros row.
  - reflexivity.
  - change (gather (row :: row' :: rows) EmptyString)
      with (gather (row' :: rows) (String newline (join "|" row))).
    rewrite gather_app, IH. reflexivity.
Qed.

Lemma rstrip_snoc (c : ascii) (s : string) :
  rstrip c (s ++ String c EmptyString) = rstrip c s.
Proof.
  induction s as [|b s IH].
  - change (rstrip c (String c EmptyString) = EmptyString).
    cbn [rstrip]. rewrite Ascii.eqb_refl. reflexivity.
  - change (String b s ++ String c EmptyString)
      with (String b (s ++ String c EmptyString)).
    cbn [rstrip]. rewrite IH. reflexivity.
Qed.

Lemma strip_snoc (c : ascii) (s : string) :
  strip c (s ++ String c EmptyString) = strip c s.
Proof.
  unfold strip, lstrip. induction s as [|b s IH].
  - change (rstrip c (skip_while (Ascii.eqb c) (String c EmptyString))
            = EmptyString).
    cbn [skip_while]. rewrite Ascii.eqb_refl. reflexivity.
  - change (String b s ++ String c EmptyString)
      with (String b (s ++ String c EmptyString)).
    cbn [skip_while]. destruct (Ascii.eqb c b); [exact IH|].
    apply (rstrip_snoc c (String b s)).
Qed.

(** X13. Blank records at the start and at the end of what the reader
    yields (blank lines of the file) leave no trace in the text that
    [csv_reader] returns. *)
Theorem csv_reader_drops_blank_records (rows : list (list string)) :
  csv_reader ([] :: rows) = csv_reader rows
  /\ csv_reader (rows ++ [[]]) = csv_reader rows.
Proof.
  unfold csv_reader. fold (gather ([] :: rows) EmptyString).
  fold (gather (rows ++ [[]]) EmptyString). fold (gather rows EmptyString).
  split.
  - change (gather ([] :: rows) EmptyString)
      with (gather rows (String newline EmptyString)).
    rewrite gather_app. unfold strip, lstrip.
    change (String newline EmptyString ++ gather rows EmptyString)
      with (String newline (gather rows EmptyString)).
    cbn [skip_while]. rewrite Ascii.eqb_refl. reflexivity.
  - unfold gather at 1. rewrite fold_left_app. cbn [fold_left join].
    apply strip_snoc.
Qed.

Lemma absent_app (c : ascii) (s t : string) :
  absent c (s ++ t) = absent c s && absent c t.
Proof. apply all_chars_app. Qed.

Lemma absent_join (c : ascii) (sep : string) (l : list string) :
  absent c sep = true -> forallb (absent c) l = true ->
  absent c (join sep l) = true.
Proof.
  intros Hsep. induction l as [|x l IH]; intros Hl; [reflexivity|].
  cbn [forallb] in Hl. apply andb_prop in Hl as [Hx Hl].
  cbn [join]. destruct l as [|y l]; [exact Hx|].
  rewrite !absent_app, Hx, Hsep, (IH Hl). reflexivity.
Qed.

Lemma split_app_sep (c : ascii) (x t : string) :
  absent c x = true ->
  split c (x ++ String c t) = x :: split c t.
Proof.
  unfold absent. induction x as [|b x IH]; intros Hx.
  - change (split c (String c t) = EmptyString :: split c t).
    cbn [split]. rewrite Ascii.eqb_refl. reflexivity.
  - cbn [all_chars] in Hx. apply andb_prop in Hx as [Hb Hx].
    apply negb_true_iff in Hb.
    change (String b x ++ String c t) with (String b (x ++ String c t)).
    cbn [split]. rewrite Hb, (IH Hx). reflexivity.
Qed.

(** Splitting undoes joining when no item holds the separator. *)
Lemma split_join (c : ascii) (l : list string) :
  l <> [] -> forallb (absent c) l = true ->
  split c (join (String c EmptyString) l) = l.
Proof.
  induction l as [|x l IH]; intros Hne Hl; [contradiction|].
  cbn [forallb] in Hl. apply andb_prop in Hl as [Hx Hl].
  cbn [join]. destruct l as [|y l]; [apply split_absent, Hx|].
  change (x ++ String c EmptyString ++ join (String c EmptyString) (y :: l))
    with (x ++ String c (join (String c EmptyString) (y :: l))).
  rewrite (split_app_sep _ _ _ Hx), IH; [reflexivity|discriminate|exact Hl].
Qed.

Lemma rstrip_absent (c : ascii) (s : string) :
  absent c s = true -> rstrip c s = s.
Proof.
  unfold absent. induction s as [|b s IH]; intros Hs; [reflexivity|].
  cbn [all_chars] in Hs. apply andb_prop in Hs as [Hb Hs].
  apply negb_true_iff in Hb. cbn [rstrip]. rewrite (IH Hs).
  destruct s; [|reflexivity].
  rewrite Ascii.eqb_sym, Hb. reflexivity.
Qed.

Lemma rstrip_app_fixed (c : ascii) (p t : string) :
  rstrip c t = t -> t <> EmptyString -> rstrip c (p ++ t) = p ++ t.
Proof.
  intros Ht Hne. induction p as [|b p IH]; [exact Ht|].
  change (String b p ++ t) with (String b (p ++ t)).
  cbn [rstrip]. rewrite IH.
  destruct (p ++ t) eqn:E; [|reflexivity].
  destruct p; [contradiction|discriminate].
Qed.

Lemma rstrip_join (c : ascii) (l : list string) :
  forallb (absent c) l = true ->
  List.last l EmptyString <> EmptyString ->
  rstrip c (join (String c EmptyString) l) = join (String c EmptyString) l
  /\ join (String c EmptyString) l <> EmptyString.
Proof.
  induction l as [|x l IH]; intros Hl Hlast; [contradiction|].
  cbn [forallb] in Hl. apply andb_prop in Hl as [Hx Hl].
  cbn [join]. destruct l as [|y l].
  - split; [apply rstrip_absent, Hx|exact Hlast].
  - destruct (IH Hl Hlast) as [Hfix Hne].
    change (x ++ String c EmptyString ++ join (String c EmptyString) (y :: l))
      with (x ++ String c (join (String c EmptyString) (y :: l))).
    split.
    + apply rstrip_app_fixed; [|discriminate].
      apply (rstrip_app_fixed c (String c EmptyString)); assumption.
    + destruct x; discriminate.
Qed.

Lemma lstrip_join (c : ascii) (x : string) (l : list string) :
  absent c x = true -> x <> EmptyString ->
  lstrip c (join (String c EmptyString) (x :: l))
  = join (String c EmptyString) (x :: l).
Proof.
  intros Hx Hne. destruct x as [|b x]; [contradiction|].
  unfold absent in Hx. cbn [all_chars] in Hx.
  apply andb_prop in Hx as [Hb _]. apply negb_true_iff in Hb.
  assert (Hj : exists r, join (String c EmptyString) (String b x :: l)
                         = String b r)
    by (destruct l; eexists; reflexivity).
  destruct Hj as [r ->].
  unfold lstrip. cbn [skip_while]. rewrite Ascii.eqb_sym, Hb. reflexivity.
Qed.

Lemma last_map_join (rows : list (list string)) :
  List.last (map (join "|") rows) EmptyString = join "|" (List.last rows []).
Proof.
  induction rows as [|row rows IH]; [reflexivity|].
  cbn [map]. destruct rows as [|row' rows]; [reflexivity|]. exact IH.
Qed.

Lemma plain_record_fields (c : ascii) (row : list string) :
  c = "|"%char \/ c = newline ->
  plain_record row = true -> forallb (absent c) row = true.
Proof.
  intros Hc. unfold plain_record. intros H.
  apply andb_prop in H as [_ H].
  induction row as [|f row IH]; [reflexivity|].
  cbn [forallb] in *. apply andb_prop in H as [Hf H].
  unfold plain_field in Hf. apply andb_prop in Hf as [H1 H2].
  rewrite (IH H). destruct Hc as [-> | ->]; [rewrite H1|rewrite H2]; reflexivity.
Qed.

(** The lines of the returned text are the records, joined. *)
Lemma csv_reader_lines (row : list string) (rows : list (list string)) :
  forallb plain_record (row :: rows) = true ->
  join "|" row <> EmptyString ->
  join "|" (List.last (row :: rows) []) <> EmptyString ->
  split newline (csv_reader (row :: rows)) = map (join "|") (row :: rows).
Proof.
  intros Hplain Hfirst Hlast.
  assert (Hlines : forallb (absent newline) (map (join "|") (row :: rows)) = true).
  { clear Hfirst Hlast. induction (row :: rows) as [|r rs IH]; [reflexivity|].
    cbn [forallb map] in *. apply andb_prop in Hplain as [Hr Hrs].
    rewrite (IH Hrs), andb_true_r.
    apply absent_join; [reflexivity|].
    apply plain_record_fields; [right; reflexivity|exact Hr]. }
  unfold csv_reader. fold (gather (row :: rows) EmptyString).
  rewrite gather_lines. unfold strip.
  cbn [map] in *.
  assert (Hl : lstrip newline
                 (String newline
                    (join (String newline EmptyString)
                          (join "|" row :: map (join "|") rows)))
               = join (String newline EmptyString)
                      (join "|" row :: map (join "|") rows)).
  { unfold lstrip. cbn [skip_while]. rewrite Ascii.eqb_refl.
    apply lstrip_join; [|exact Hfirst].
    cbn [forallb] in Hlines. apply andb_prop in Hlines as [H _]. exact H. }
  rewrite Hl.
  destruct (rstrip_join newline (join "|" row :: map (join "|") rows) Hlines)
    as [Hr _].
  { change (join "|" row :: map (join "|") rows)
      with (map (join "|") (row :: rows)).
    rewrite last_map_join. exact Hlast. }
  rewrite Hr. apply split_join; [discriminate|exact Hlines].
Qed.

(** X14. Round trip of reading: when every record has at least one field,
    no field holds a pipe or a line break, and the first and the last
    record are not a single empty field, splitting the text of
    [csv_reader] into lines and the lines at the pipes gives back the
    records. *)
Theorem csv_reader_round_trip (row : list string) (rows : list (list string)) :
  forallb plain_record (row :: rows) = true ->
  join "|" row <> EmptyString ->
  join "|" (List.last (row :: rows) []) <> EmptyString ->
  map (split "|") (split newline (csv_reader (row :: rows))) = row :: rows.
Proof.
  intros Hplain Hfirst Hlast.
  rewrite (csv_reader_lines _ _ Hplain Hfirst Hlast).
  clear Hfirst Hlast. induction (row :: rows) as [|r rs IH]; [reflexivity|].
  cbn [forallb map] in *. apply andb_prop in Hplain as [Hr Hrs].
  rewrite (IH Hrs). f_equal.
  apply (split_join "|" r).
  - unfold plain_record in Hr. apply andb_prop in Hr as [Hr _].
    destruct r; [discriminate|discriminate].
  - apply plain_record_fields; [left; reflexivity|exact Hr].
Qed.

Lemma csv_reader_round_trip_witness :
  forallb plain_record [["Class"; "TIRS10"; "TIRS11"]; ["Forest"; ""; "0.996"]]
  = true
  /\ map (split "|")
         (split newline
            (csv_reader [["Class"; "TIRS10"; "TIRS11"]; ["Forest"; ""; "0.996"]]))
     = [["Class"; "TIRS10"; "TIRS11"]; ["Forest"; ""; "0.996"]].
Proof.
  split; [vm_compute; reflexivity|].
  apply (csv_reader_round_trip ["Class"; "TIRS10"; "TIRS11"]
                               [["Forest"; ""; "0.996"]]).
  - vm_compute; reflexivity.
  - vm_compute; discriminate.
  - vm_compute; discriminate.
Defined.

(** X15. [main] composes the two: on records as above it builds the
    dictionary from the records themselves, the fields of the first
    record after its first being the field names and every later record
    one row. *)
Theorem main_reads_records (header : list string) (records : list (list string)) :
  forallb plain_record (header :: records) = true ->
  join "|" header <> EmptyString ->
  join "|" (List.last (header :: records) []) <> EmptyString ->
  main (header :: records)
  = map_rows (transform_cwv (drop 1 header)) (map (join "|") records) ∅.
Proof.
  intros Hplain Hfirst Hlast. unfold main, csv_to_dictionary.
  rewrite (csv_reader_lines _ _ Hplain Hfirst Hlast). cbn [map].
  rewrite (split_join "|" header); [reflexivity| |].
  - intros ->. apply Hfirst. reflexivity.
  - cbn [forallb] in Hplain. apply andb_prop in Hplain as [Hh _].
    apply plain_record_fields; [left; reflexivity|exact Hh].
Qed.

Lemma main_reads_records_witness :
  main [["Range"; "Subrange"; "b0"; "b1"; "b2"; "b3"; "b4"; "b5"; "b6"; "b7"; "RMSE"];
        ["S1"; "0.5"; "1"; "0"; "0"; "0"; "0"; "0"; "0"; "0.1"]]
  = map_rows
      (transform_cwv ["Subrange"; "b0"; "b1"; "b2"; "b3"; "b4"; "b5"; "b6"; "b7"; "RMSE"])
      ["S1|0.5|1|0|0|0|0|0|0|0.1"] ∅.
Proof.
  apply (main_reads_records
           ["Range"; "Subrange"; "b0"; "b1"; "b2"; "b3"; "b4"; "b5"; "b6"; "b7"; "RMSE"]
           [["S1"; "0.5"; "1"; "0"; "0"; "0"; "0"; "0"; "0"; "0.1"]]).
  - vm_compute; reflexivity.
  - vm_compute; discriminate.
  - vm_compute; discriminate.
Defined.

Lemma rstrip_never_ends_with (c : ascii) (s t : string) :
  rstrip c s <> t ++ String c EmptyString.
Proof.
  revert t. induction s as [|b s IH]; intros t.
  - destruct t; discriminate.
  - cbn [rstrip]. destruct (rstrip c s) as [|a r] eqn:Hr.
    + destruct (Ascii.eqb_spec c b) as [->|Hne]; [destruct t; discriminate|].
      destruct t as [|a t]; [intros [= ->]; contradiction|].
      destruct t; discriminate.
    + destruct t as [|a' t]; [discriminate|].
      intros [= -> H]. apply (IH t). exact H.
Qed.

Lemma rstrip_keeps_first (c b : ascii) (s r : string) :
  rstrip c (String b s) = String c r -> b = c.
Proof.
  cbn [rstrip]. destruct (rstrip c s).
  - destruct (Ascii.eqb c b); [discriminate|]. intros [= ->]. reflexivity.
  - intros [= ->]. reflexivity.
Qed.

(** X18. The text that [csv_reader] returns never begins and never ends
    with a line break, whatever the records are; so it never has the
    empty last row that [csv_to_dictionary] would fail on. *)
Theorem csv_reader_has_no_outer_newline (rows : list (list string))
    (s : string) :
  csv_reader rows <> String newline s
  /\ csv_reader rows <> s ++ String newline EmptyString.
Proof.
  unfold csv_reader, strip. split; [|apply rstrip_never_ends_with].
  unfold lstrip.
  induction (fold_left
               (fun string row => string ++ String newline (join "|" row))
               rows EmptyString) as [|b text IH].
  - discriminate.
  - cbn [skip_while]. destruct (Ascii.eqb_spec newline b) as [<-|Hne];
      [exact IH|].
    intros H. apply rstrip_keeps_first in H. congruence.
Qed.

(** * [random_digital_numbers] *)

(** X16. Whatever the draws, as long as each lies between 1 and [2**12]
    as [random.randint] promises: for [count == 1] the result is one bare
    number, and for any other count it is a list of exactly [count]
    numbers (none for a count below one), every number within the twelve
    bits. With the default count of two the result can be unpacked into
    two values, as [main] does. *)
Theorem random_digital_numbers_in_range (randint : nat -> Z) (count : Z) :
  (forall k, 1 <= randint k <= 2 ^ 12)%Z ->
  exists r,
    random_digital_numbers randint count = Ok r
    /\ match r with
       | Number dn => count = 1%Z /\ (1 <= dn <= 4096)%Z
       | Numbers dns =>
           count <> 1%Z
           /\ length dns = Z.to_nat count
           /\ Forall (fun dn => (1 <= dn <= 4096)%Z) dns
       end.
Proof.
  intros Hrange. unfold random_digital_numbers.
  destruct (Z.eqb_spec count 1) as [->|Hne].
  - exists (Number (randint 0%nat)). split; [reflexivity|].
    split; [reflexivity|]. apply (Hrange 0%nat).
  - eexists. split; [reflexivity|]. cbv beta iota.
    split; [exact Hne|]. split.
    + rewrite length_map, length_seq. reflexivity.
    + apply Forall_forall. intros dn Hin.
      apply list_elem_of_In, in_map_iff in Hin as (k & <- & _).
      apply (Hrange k).
Qed.

Lemma random_digital_numbers_in_range_witness :
  exists r,
    random_digital_numbers (fun k => Z.of_nat (k mod 4096) + 1)%Z 2 = Ok r
    /\ match r with
       | Number dn => 2%Z = 1%Z /\ (1 <= dn <= 4096)%Z
       | Numbers dns =>
           2%Z <> 1%Z
           /\ length dns = Z.to_nat 2
           /\ Forall (fun dn => (1 <= dn <= 4096)%Z) dns
       end.
Proof.
  apply (random_digital_numbers_in_range
           (fun k => Z.of_nat (k mod 4096) + 1)%Z 2).
  intros k. pose proof (Nat.mod_upper_bound k 4096). change (2 ^ 12)%Z with 4096%Z.
  lia.
Defined.

(** * [is_number] on decimal digits *)

Lemma all_chars_skip_while (p : ascii -> bool) (s : string) :
  all_chars p s = true ->
  skip_while p s = EmptyString /\ count_while p s = String.length s.
Proof.
  induction s as [|c s IH]; intros H; [split; reflexivity|].
  cbn [all_chars] in H. apply andb_prop in H as [Hc Hs].
  cbn [skip_while count_while String.length]. rewrite Hc.
  destruct (IH Hs) as [-> ->]. split; reflexivity.
Qed.

Lemma digit_is_no_space_or_sign (c : ascii) :
  is_digit c = true -> is_space c = false /\ is_sign c = false.
Proof.
  destruct c as [[] [] [] [] [] [] [] []]; vm_compute;
    intros H; try discriminate H; split; reflexivity.
Qed.

(** X17. Every non-empty text of decimal digits reads as a number:
    [is_number] returns it, as the same text. *)
Theorem is_number_keeps_digits (s : string) :
  s <> EmptyString ->
  all_chars is_digit s = true ->
  is_number s = PyStr s.
Proof.
  intros Hne Hdigits.
  assert (Hf : float_accepts s = true); [|unfold is_number; rewrite Hf; reflexivity].
  destruct s as [|c s]; [contradiction|].
  pose proof (all_chars_skip_while _ _ Hdigits) as [Hskip Hcount].
  cbn [all_chars] in Hdigits. apply andb_prop in Hdigits as [Hc _].
  destruct (digit_is_no_space_or_sign c Hc) as [Hspace Hsign].
  unfold float_accepts. cbn [skip_while]. rewrite Hspace.
  unfold string_to_double, parse_decimal, skip_sign. rewrite Hsign.
  rewrite Hskip, Hcount. cbn [String.length Nat.add Nat.eqb].
  reflexivity.
Qed.

Lemma is_number_keeps_digits_witness :
  is_number "4096" = PyStr "4096".
Proof.
  apply (is_number_keeps_digits "4096"); [discriminate|vm_compute; reflexivity].
Defined.
